(** * Point-cloud converter: cleaning, subsampling and export

    A shallow embedding of the [Logic] classes of
    [point_cloud_converter.py] and [point_cloud_transformer.py]
    (Python 2), together with the small part of the Python run time,
    [os.path], [numpy.random] and [pandas] that those classes call. *)

From Stdlib Require Import ZArith Lia List Ascii String Bool.
From Stdlib Require Import Floats.SpecFloat.
From Stdlib Require Import DecimalString.
From stdpp Require Import base option list gmap strings.

Open Scope string_scope.
Open Scope list_scope.

#[local] Arguments String.append !s1 s2 : simpl nomatch.
#[local] Arguments Ascii.eqb : simpl never.

(** ** The Python run time *)

Module Py.

(** The exceptions that the modelled code can raise. *)
Inductive exn : Set := IOError | IndexError | ValueError | OverflowError.

(** A computation either returns a value or raises. *)
Inductive result (A : Type) : Type :=
| Ok (a : A)
| Raise (e : exn).
Arguments Ok {A} a.
Arguments Raise {A} e.

Definition bind {A B} (m : result A) (k : A -> result B) : result B :=
  match m with
  | Ok a => k a
  | Raise e => Raise e
  end.

(** A Python 2 [str] is a byte string. *)
Definition str : Set := string.

Definition CR : ascii := "013"%char.
Definition LF : ascii := "010"%char.
Definition CRLF : str := String CR (String LF "").

(** [s[i]] for a non-negative index: a string of one character. *)
Definition str_getitem (s : str) (i : nat) : result str :=
  match String.get i s with
  | Some c => Ok (String c "")
  | None => Raise IndexError
  end.

(** [l[i]] and [l[i] = x] for a non-negative index. *)
Definition list_getitem {A} (l : list A) (i : nat) : result A :=
  match l !! i with
  | Some x => Ok x
  | None => Raise IndexError
  end.

Definition list_setitem {A} (l : list A) (i : nat) (x : A) : result (list A) :=
  if decide (i < length l)%nat then Ok (<[i:=x]> l) else Raise IndexError.

(** [s.split(sep)] for a separator of one character: one field more
    than there are separators, never the empty list. *)
Fixpoint str_split (sep : ascii) (s : str) : list str :=
  match s with
  | "" => [""]
  | String c s' =>
      if Ascii.eqb c sep then "" :: str_split sep s'
      else match str_split sep s' with
           | f :: fs => String c f :: fs
           | [] => [String c ""]
           end
  end.

(** [s.startswith(prefix)] *)
Fixpoint startswith (s prefix : str) {struct prefix} : bool :=
  match prefix with
  | "" => true
  | String a prefix' =>
      match s with
      | String b s' => Ascii.eqb a b && startswith s' prefix'
      | "" => false
      end
  end.

(** [s.replace(old, new)] for a non-empty [old]: the occurrences of
    [old] are found from left to right, without overlap, and the text
    put in is not scanned again.  [skip] counts the characters of a
    match that are still to be dropped. *)
Fixpoint str_replace_from (old new : str) (skip : nat) (s : str) : str :=
  match s with
  | "" => ""
  | String c s' =>
      match skip with
      | S k => str_replace_from old new k s'
      | O =>
          if startswith s old
          then new +:+ str_replace_from old new (String.length old - 1) s'
          else String c (str_replace_from old new 0 s')
      end
  end.

Definition str_replace (old new s : str) : str := str_replace_from old new 0 s.

(** Iterating over a file opened in mode ['rb']: the content is cut
    after every line feed, each line keeps its terminator, and a last
    line with no terminator is a line too. *)
Fixpoint readlines (content : str) : list str :=
  match content with
  | "" => []
  | String c rest =>
      if Ascii.eqb c LF then String c "" :: readlines rest
      else match readlines rest with
           | l :: ls => String c l :: ls
           | [] => [String c ""]
           end
  end.

(** [for x in xs: acc = body(acc, x)], stopping at the first exception. *)
Fixpoint for_each {A B} (body : A -> B -> result A) (acc : A) (xs : list B)
  : result A :=
  match xs with
  | [] => Ok acc
  | x :: xs' => bind (body acc x) (fun acc' => for_each body acc' xs')
  end.

(** The file system: a path names a file with its bytes, and a file may
    be unreadable for the process. *)
Record file : Set := File { readable : bool; content : str }.

(** [open(path, 'rb')] with the whole content read. *)
Definition open_rb (fs : gmap string file) (path : str) : result str :=
  match fs !! path with
  | Some f => if readable f then Ok (content f) else Raise IOError
  | None => Raise IOError
  end.

(** *** Floats

    A Python [float] is an IEEE 754 binary64 number; the operations
    are those of the specification of floating-point arithmetic of
    the standard library, at precision 53 and maximal exponent 1024. *)

Definition prec : Z := 53.
Definition emax : Z := 1024.

Definition float : Set := spec_float.

Definition float_valid (x : float) : bool := valid_binary prec emax x.

Definition float_zero : float := S754_zero false.
Definition float_one : float := S754_finite false 4503599627370496 (-52).

Definition float_mul (x y : float) : float := SFmul prec emax x y.
Definition float_lt (x y : float) : bool := SFltb x y.
Definition float_le (x y : float) : bool := SFleb x y.

(** The conversion of an [int] operand of a float operation; an
    [int] beyond the largest float raises. *)
Definition float_of_int (n : Z) : result float :=
  match binary_normalize prec emax n 0 false with
  | S754_infinity _ => Raise OverflowError
  | x => Ok x
  end.

(** The integer nearest to [m * 2^e], a tie going away from zero. *)
Definition nearest_away (m : positive) (e : Z) : Z :=
  if (0 <=? e)%Z then (Zpos m * 2 ^ e)%Z
  else
    let d := (2 ^ (- e))%Z in
    let q := (Zpos m / d)%Z in
    if (d <=? 2 * (Zpos m mod d))%Z then (q + 1)%Z else q.

(** [round(x)] of Python 2: a float again, ties away from zero, the
    sign kept on a zero result. *)
Definition round (x : float) : float :=
  match x with
  | S754_finite s m e =>
      binary_normalize prec emax (cond_Zopp s (nearest_away m e)) 0 s
  | _ => x
  end.

(** [int(x)]: truncation towards zero. *)
Definition int (x : float) : result Z :=
  match x with
  | S754_nan => Raise ValueError
  | S754_infinity _ => Raise OverflowError
  | S754_zero _ => Ok 0%Z
  | S754_finite s m e =>
      Ok (cond_Zopp s
            (if (0 <=? e)%Z then Zpos m * 2 ^ e else Zpos m / 2 ^ (- e))%Z)
  end.

(** *** [float(s)] for a string

    White space is stripped at both ends; what is left is a sign, then
    [inf], [infinity] or [nan] in any case, or a decimal numeral with
    an optional fraction and an optional exponent.  The value is the
    float nearest to the numeral (ties to even). *)

Definition is_space (c : ascii) : bool :=
  let n := nat_of_ascii c in
  ((9 <=? n) && (n <=? 13) || (n =? 32))%nat.

Fixpoint lstrip (s : str) : str :=
  match s with
  | String c s' => if is_space c then lstrip s' else s
  | "" => ""
  end.

Fixpoint rstrip (s : str) : str :=
  match s with
  | String c s' =>
      match rstrip s' with
      | "" => if is_space c then "" else String c ""
      | r => String c r
      end
  | "" => ""
  end.

Definition digit_of (c : ascii) : option Z :=
  let n := nat_of_ascii c in
  if ((48 <=? n) && (n <=? 57))%nat then Some (Z.of_nat n - 48)%Z else None.

(** The longest run of digits at the head of [s]: its value read after
    the digits [acc], the number of digits read, and the rest. *)
Fixpoint digits (acc : Z) (n : nat) (s : str) : Z * nat * str :=
  match s with
  | String c s' =>
      match digit_of c with
      | Some d => digits (10 * acc + d)%Z (S n) s'
      | None => (acc, n, s)
      end
  | "" => (acc, n, s)
  end.

Definition sign (s : str) : bool * str :=
  match s with
  | String "-" s' => (true, s')
  | String "+" s' => (false, s')
  | _ => (false, s)
  end.

Definition lower (c : ascii) : ascii :=
  let n := nat_of_ascii c in
  if ((65 <=? n) && (n <=? 90))%nat then ascii_of_nat (n + 32) else c.

Fixpoint lowercase (s : str) : str :=
  match s with
  | String c s' => String (lower c) (lowercase s')
  | "" => ""
  end.

(** The float nearest to [m * 10^e], with the sign [neg]. *)
Definition float_of_decimal (neg : bool) (m e : Z) : float :=
  match m with
  | Zpos p =>
      if (0 <=? e)%Z
      then binary_normalize prec emax (cond_Zopp neg (m * 10 ^ e)) 0 neg
      else SFdiv prec emax (S754_finite neg p 0)
                           (S754_finite false (Z.to_pos (10 ^ (- e))) 0)
  | _ => S754_zero neg
  end.

(** The exponent part: [e] or [E], a sign, at least one digit. *)
Definition exponent (s : str) : option (Z * str) :=
  match s with
  | String c s' =>
      if Ascii.eqb (lower c) "e" then
        let '(neg, s1) := sign s' in
        let '(v, n, rest) := digits 0 0 s1 in
        if (n =? 0)%nat then None else Some (cond_Zopp neg v, rest)
      else None
  | "" => None
  end.

Definition decimal (neg : bool) (s : str) : result float :=
  let '(ip, n1, r1) := digits 0 0 s in
  let '(m, n2, r2) :=
    match r1 with
    | String "." r => digits ip 0 r
    | _ => (ip, 0%nat, r1)
    end in
  if (n1 + n2 =? 0)%nat then Raise ValueError
  else
    match r2 with
    | "" => Ok (float_of_decimal neg m (- Z.of_nat n2))
    | _ =>
        match exponent r2 with
        | Some (x, "") => Ok (float_of_decimal neg m (x - Z.of_nat n2))
        | _ => Raise ValueError
        end
    end.

Definition float_of_str (s : str) : result float :=
  let '(neg, body) := sign (rstrip (lstrip s)) in
  let word := lowercase body in
  if String.eqb word "inf" || String.eqb word "infinity"
  then Ok (S754_infinity neg)
  else if String.eqb word "nan" then Ok S754_nan
  else decimal neg body.

End Py.

Import Py.

#[global] Instance result_bind : MBind result := fun _ _ k m => bind m k.
#[global] Instance result_ret : MRet result := fun _ a => Ok a.

(** ** [os.path] (the POSIX flavour) *)

Module PosixPath.

(** [s.rfind(c)]: the last index of [c], or -1. *)
Fixpoint rfind_from (c : ascii) (s : str) (i : nat) (last : Z) : Z :=
  match s with
  | "" => last
  | String a s' =>
      rfind_from c s' (S i) (if Ascii.eqb a c then Z.of_nat i else last)
  end.

Definition rfind (c : ascii) (s : str) : Z := rfind_from c s 0 (-1).

(** [s[:i]] and [s[i:]] for a non-negative [i]. *)
Fixpoint slice_to (s : str) (i : nat) : str :=
  match i, s with
  | S i', String c s' => String c (slice_to s' i')
  | _, _ => ""
  end.

Fixpoint slice_from (s : str) (i : nat) : str :=
  match i, s with
  | S i', String c s' => slice_from s' i'
  | _, _ => s
  end.

(** [s.rstrip(c)] *)
Fixpoint rstrip_char (c : ascii) (s : str) : str :=
  match s with
  | String a s' =>
      match rstrip_char c s' with
      | "" => if Ascii.eqb a c then "" else String a ""
      | r => String a r
      end
  | "" => ""
  end.

(** [s == c * len(s)] *)
Fixpoint all_char (c : ascii) (s : str) : bool :=
  match s with
  | String a s' => Ascii.eqb a c && all_char c s'
  | "" => true
  end.

(** [s.endswith(c)] *)
Fixpoint endswith (s : str) (c : ascii) : bool :=
  match s with
  | String a "" => Ascii.eqb a c
  | String _ s' => endswith s' c
  | "" => false
  end.

Definition split (p : str) : str * str :=
  let i := Z.to_nat (rfind "/" p + 1) in
  let head := slice_to p i in
  let tail := slice_from p i in
  let head :=
    if negb (String.eqb head "") && negb (all_char "/" head)
    then rstrip_char "/" head else head in
  (head, tail).

(** The loop of [splitext] over the indices from [i], [n] of them: is
    there a character other than the dot? *)
Fixpoint other_than_dot (p : str) (i n : nat) : bool :=
  match n with
  | O => false
  | S n' =>
      match String.get i p with
      | Some c => if Ascii.eqb c "." then other_than_dot p (S i) n' else true
      | None => false
      end
  end.

Definition splitext (p : str) : str * str :=
  let sepIndex := rfind "/" p in
  let dotIndex := rfind "." p in
  if (sepIndex <? dotIndex)%Z
     && other_than_dot p (Z.to_nat (sepIndex + 1))
                       (Z.to_nat (dotIndex - (sepIndex + 1)))
  then (slice_to p (Z.to_nat dotIndex), slice_from p (Z.to_nat dotIndex))
  else (p, "").

(** [join(a, b)] *)
Definition join (a b : str) : str :=
  if startswith b "/" then b
  else if String.eqb a "" || endswith a "/" then a +:+ b
  else a +:+ "/" +:+ b.

End PosixPath.

(** ** [numpy.random] and [pandas] *)

(** [RandomState(seed).choice(a, size, replace=False)] for [size <= a]:
    [size] distinct positions below [a].  Which ones is up to the
    generator. *)
Class RandomState := {
  choice : Z -> nat -> nat -> list nat;
  choice_length : forall seed a size,
    (size <= a)%nat -> length (choice seed a size) = size;
  choice_NoDup : forall seed a size,
    (size <= a)%nat -> NoDup (choice seed a size);
  choice_lt : forall seed a size i,
    (size <= a)%nat -> i ∈ choice seed a size -> (i < a)%nat
}.

(** A cell of a frame: a string, or nothing where a short row was
    filled up. *)
Definition cell : Set := option str.

(** The workbook writer: the bytes of the [.xlsx] file of a grid. *)
Class ExcelWriter := { xlsx : list (list cell) -> str }.

Module Pandas.

Record DataFrame : Set := { index : list nat; values : list (list cell) }.

Definition fill (width : nat) (row : list str) : list cell :=
  map Some row ++ replicate (width - length row) None.

(** [pd.DataFrame(data)] for a list of rows: as many columns as the
    longest row has, the labels 0, 1, ... *)
Definition of_rows (data : list (list str)) : DataFrame :=
  {| index := seq 0 (length data);
     values := map (fill (max_list (map length data))) data |}.

(** [df.take(locs)] *)
Definition take (df : DataFrame) (locs : list nat) : result DataFrame :=
  labels ← mapM (list_getitem (index df)) locs;
  rows ← mapM (list_getitem (values df)) locs;
  Ok {| index := labels; values := rows |}.

(** [int(round(frac * axis_length))], the number of rows to draw. *)
Definition sample_size (frac : float) (axis_length : nat) : result Z :=
  len ← float_of_int (Z.of_nat axis_length);
  int (round (float_mul frac len)).

Section Sample.
Context `{RandomState}.

(** [df.sample(frac=frac, random_state=seed)], as in the releases of
    pandas for Python 2: the size is [int(round(frac * axis_length))],
    a negative size raises [ValueError], and so does the generator when
    the size exceeds the number of rows; otherwise the rows at the
    positions drawn are taken. *)
Definition sample (df : DataFrame) (frac : float) (seed : Z)
  : result DataFrame :=
  let axis_length := length (index df) in
  n ← sample_size frac axis_length;
  if (n <? 0)%Z then Raise ValueError
  else if (Z.of_nat axis_length <? n)%Z then Raise ValueError
  else take df (choice seed axis_length (Z.to_nat n)).
End Sample.

Section ToExcel.
Context `{ExcelWriter}.

(** [df.to_excel(path, header=False, index=False)]: the values
    alone are written, the file is created or replaced. *)
Definition to_excel (df : DataFrame) (path : str) (fs : gmap string file)
  : gmap string file :=
  <[path := File true (xlsx (values df))]> fs.
End ToExcel.

End Pandas.

(** ** The line loop shared by [cleaned_cloud] and [_clean_cloud] *)

Definition clean_line (container : list (list str)) (line : str)
  : result (list (list str)) :=
  c ← str_getitem line 0;
  if String.eqb c "#" then Ok container
  else
    let row := str_split "," line in
    z ← list_getitem row 2;
    row ← list_setitem row 2 (str_replace CRLF "" z);
    Ok (container ++ [row]).

(** ** [point_cloud_converter.Logic] *)

Module Converter.
Section Logic.
Context `{RandomState} `{ExcelWriter}.

(** [None] is Python's [None]; only [ValueError] is caught. *)
Definition validate_sub (x : str) : result (option float) :=
  match float_of_str x with
  | Raise ValueError => Ok None
  | Raise e => Raise e
  | Ok x => if float_lt float_zero x && float_le x float_one
            then Ok (Some x) else Ok None
  end.

Definition _xlsx_path (filepath : str) : str :=
  let '(head, tail) := PosixPath.split filepath in
  let filename := fst (PosixPath.splitext tail) in
  PosixPath.join head (filename +:+ ".xlsx").

Definition cleaned_cloud (fs : gmap string file) (filepath : str)
  : result (list (list str)) :=
  f ← open_rb fs filepath;
  for_each clean_line [] (readlines f).

(** [seed] stands for the value that [random.randint(0,10)] returns
    in this call. *)
Definition point_data (data : list (list str)) (subsample : float)
  (seed : Z) : result (nat * Pandas.DataFrame) :=
  let df := Pandas.of_rows data in
  df ← Pandas.sample df subsample seed;
  Ok (length (Pandas.index df), df).

Definition preview (fs : gmap string file) (filepath : str)
  (subsample : float) (seed : Z) : result nat :=
  points ← cleaned_cloud fs filepath;
  r ← point_data points subsample seed;
  Ok (fst r).

(** The writing functions return the file system they leave
    together with their outcome. *)
Definition _create_xlsx (fs : gmap string file) (filepath : str)
  (data : list (list str)) (subsample : float) (seed : Z)
  : result unit * gmap string file :=
  match point_data data subsample seed with
  | Raise e => (Raise e, fs)
  | Ok r => (Ok tt, Pandas.to_excel (snd r) (_xlsx_path filepath) fs)
  end.

Definition transform (fs : gmap string file) (filepath : str)
  (subsample : float) (seed : Z) : result unit * gmap string file :=
  match cleaned_cloud fs filepath with
  | Raise e => (Raise e, fs)
  | Ok data => _create_xlsx fs filepath data subsample seed
  end.
End Logic.
End Converter.

(** ** [point_cloud_transformer.Logic] *)

Module Transformer.
Section Logic.
Context `{RandomState} `{ExcelWriter}.

Definition validate_subsample (x : str) : result (option float) :=
  match float_of_str x with
  | Raise ValueError => Ok None
  | Raise e => Raise e
  | Ok x => if float_lt float_zero x && float_le x float_one
            then Ok (Some x) else Ok None
  end.

Definition _xlsx_path (filepath : str) : str :=
  let '(head, tail) := PosixPath.split filepath in
  let filename := fst (PosixPath.splitext tail) in
  PosixPath.join head (filename +:+ ".xlsx").

Definition _create_xlsx (fs : gmap string file) (filepath : str)
  (data : list (list str)) (subsample : float) (seed : Z)
  : result unit * gmap string file :=
  let df := Pandas.of_rows data in
  match Pandas.sample df subsample seed with
  | Raise e => (Raise e, fs)
  | Ok df => (Ok tt, Pandas.to_excel df (_xlsx_path filepath) fs)
  end.

(** [container] is the list handed in; the list returned is that
    same list after the appends. *)
Definition _clean_cloud (fs : gmap string file) (filepath : str)
  (container : list (list str)) : result (list (list str)) :=
  f ← open_rb fs filepath;
  for_each clean_line container (readlines f).

Definition transform (fs : gmap string file) (filepath : str)
  (container : list (list str)) (subsample : float) (seed : Z)
  : result unit * gmap string file :=
  match _clean_cloud fs filepath container with
  | Raise e => (Raise e, fs)
  | Ok container => _create_xlsx fs filepath container subsample seed
  end.
End Logic.
End Transformer.


(** ** Vocabulary of the statements *)

Fixpoint contains (c : ascii) (s : str) : bool :=
  match s with
  | String a s' => Ascii.eqb a c || contains c s'
  | "" => false
  end.

Fixpoint count_char (c : ascii) (s : str) : nat :=
  match s with
  | String a s' => (if Ascii.eqb a c then 1 else 0) + count_char c s'
  | "" => 0
  end.

Definition is_comment (line : str) : bool :=
  match line with
  | String c _ => Ascii.eqb c "#"
  | "" => false
  end.

(** The lines of a file that are not comment lines. *)
Definition data_lines (content : str) : list str :=
  List.filter (fun l => negb (is_comment l)) (readlines content).

(** Every line that is not a comment line splits into three fields. *)
Definition three_fields (content : str) : bool :=
  forallb (fun l => is_comment l || (length (str_split "," l) =? 3)%nat)
          (readlines content).

(** Every line is a comment line. *)
Definition only_comments (content : str) : bool :=
  forallb is_comment (readlines content).

Fixpoint has_crlf (s : str) : bool :=
  match s with
  | String a s' =>
      match s' with
      | String b _ => Ascii.eqb a CR && Ascii.eqb b LF || has_crlf s'
      | "" => false
      end
  | "" => false
  end.

Definition strip (z : str) : str := str_replace CRLF "" z.

(** The floats 0.5 and 1.1. *)
Definition float_half : float := S754_finite false 4503599627370496 (-53).
Definition float_eleven_tenths : float :=
  S754_finite false 4953959590107546 (-52).

(** A generator that starts at the row of its seed and walks on from
    there, and a writer that lays the cells out as text: instances to
    run the definitions with. *)
Definition walk (seed : Z) (a size : nat) : list nat :=
  take size (rotate (Z.to_nat seed) (seq 0 a)).

Definition cell_text (c : cell) : str := default "" c.

Definition grid_text (grid : list (list cell)) : str :=
  String.concat (String LF "")
    (map (fun row => String.concat "," (map cell_text row)) grid).

#[local] Instance text_writer : ExcelWriter := {| xlsx := grid_text |}.

(** ** Files to run the definitions on *)

Definition line_of (x y z : str) : str := x +:+ "," +:+ y +:+ "," +:+ z +:+ CRLF.

(** Two comment lines and ten data lines. *)
Definition ten_points : str :=
  "# PolyWorks cross-section" +:+ CRLF +:+
  line_of "0.0" "0.0" "1.5" +:+ line_of "0.1" "0.0" "1.5" +:+
  line_of "0.2" "0.1" "1.5" +:+ line_of "0.3" "0.1" "1.5" +:+
  "# 0.35,0.9,1.5" +:+ CRLF +:+
  line_of "0.4" "0.2" "1.5" +:+ line_of "0.5" "0.2" "1.5" +:+
  line_of "0.6" "0.3" "1.5" +:+ line_of "0.7" "0.3" "1.5" +:+
  line_of "0.8" "0.4" "1.5" +:+ line_of "0.9" "0.4" "1.5".

Definition scan_txt : str := "/data/scan.txt".

Definition disk (content : str) : gmap string file :=
  {[ scan_txt := File true content ]}.

(** ** The windows of the two applications *)

(** [os.path.dirname], and [os.path.join] with several parts. *)
Definition dirname (p : str) : str := fst (PosixPath.split p).

Definition join_all (a : str) (parts : list str) : str :=
  fold_left PosixPath.join parts a.

(** [resource_path]: [meipass] is [sys._MEIPASS], absent when the
    program does not run from a bundle; [file] is [__file__]. *)
Definition resource_path (meipass : option str) (file : str)
  (relative_path : str) : str :=
  let base_path :=
    match meipass with
    | Some m => PosixPath.join m "data"
    | None => join_all (dirname (dirname file)) ["data"; "images"]
    end in
  PosixPath.join base_path relative_path.

(** A [QLabel]: its style sheet and its text. *)
Record QLabel : Set := Label { styleSheet : str; text : str }.

Definition setStyleSheet (label : QLabel) (sheet : str) : QLabel :=
  {| styleSheet := sheet; text := text label |}.

Definition setText (label : QLabel) (txt : str) : QLabel :=
  {| styleSheet := styleSheet label; text := txt |}.

Definition black : str := "color : rgb(0,0,0)".
Definition red : str := "color : rgb(255,0,0)".

(** [update_feedback_label(label, text, valid)]; the text is read only
    when [valid] holds. *)
Definition update_feedback_label (label : QLabel) (txt : str) (valid : bool)
  : QLabel :=
  if valid then setText (setStyleSheet label black) txt
  else setText (setStyleSheet label red) "***".

(** [str(n)] for an [int] that is not negative. *)
Definition str_of_nat (n : nat) : str :=
  NilEmpty.string_of_uint (Nat.to_uint n).

(** How a run of [start] ends when nothing is raised: a dialog was
    dismissed, the warning about the subsample was shown, or the
    workbook was saved. *)
Inductive outcome : Set := Dismissed | Warned | Saved.

(** *** [PointCloudConverter] *)

Module ConverterApp.
Section App.
Context `{RandomState} `{ExcelWriter}.

(** [SubSampleDialog.subsample]: [float(self.le.text())]. *)
Definition subsample (le : str) : result float := float_of_str le.

(** [update_hint]: [le] is the text of the field, [label] the label
    [point_count_lb]; the label it leaves is returned. *)
Definition update_hint (fs : gmap string file) (filepath : str) (le : str)
  (label : QLabel) (seed : Z) : result QLabel :=
  match x ← subsample le; Converter.preview fs filepath x seed with
  | Ok count =>
      Ok (update_feedback_label label (str_of_nat count +:+ " points") true)
  | Raise ValueError => Ok (update_feedback_label label "" false)
  | Raise e => Raise e
  end.

(** [validate_sub] handed a float, as [start] does: [float(x)] is [x]. *)
Definition validate_sub_of_float (x : float) : result (option float) :=
  if float_lt float_zero x && float_le x float_one
  then Ok (Some x) else Ok None.

(** [start].  [selected] is the file chosen, or nothing when the file
    dialog is dismissed; [le0] is the text of the field before the
    settings dialog opens and [entered] its text when that dialog is
    accepted, or nothing when it is dismissed.  The calls of
    [update_hint] that the field triggers while the dialog is open only
    read the file and change the label. *)
Definition start (fs : gmap string file) (selected : option str) (le0 : str)
  (entered : option str) (label : QLabel) (seed_hint seed : Z)
  : result outcome * gmap string file :=
  match selected with
  | None => (Ok Dismissed, fs)
  | Some filepath =>
      match update_hint fs filepath le0 label seed_hint with
      | Raise e => (Raise e, fs)
      | Ok _ =>
          match entered with
          | None => (Ok Dismissed, fs)
          | Some le =>
              match x ← subsample le; validate_sub_of_float x with
              | Raise e => (Raise e, fs)
              | Ok None => (Ok Warned, fs)
              | Ok (Some _) =>
                  match subsample le with
                  | Raise e => (Raise e, fs)
                  | Ok x =>
                      match Converter.transform fs filepath x seed with
                      | (Raise e, fs') => (Raise e, fs')
                      | (Ok _, fs') => (Ok Saved, fs')
                      end
                  end
              end
          end
      end
  end.

(** [PointCloudConverter()]: the field is set to 1.0, then [start]. *)
Definition __init__ (fs : gmap string file) (selected : option str)
  (entered : option str) (label : QLabel) (seed_hint seed : Z)
  : result outcome * gmap string file :=
  start fs selected "1.0" entered label seed_hint seed.
End App.
End ConverterApp.

(** *** [PointCloudTransformer] *)

Module TransformerApp.
Section App.
Context `{RandomState} `{ExcelWriter}.

(** The truth value of [self.value]: [None] and zero are false. *)
Definition truth (value : option float) : bool :=
  match value with
  | None => false
  | Some (S754_zero _) => false
  | Some _ => true
  end.

(** [start].  [selected] and [entered] are as for the converter;
    [points] is [self.points]. *)
Definition start (fs : gmap string file) (selected : option str)
  (entered : option str) (points : list (list str)) (seed : Z)
  : result outcome * gmap string file :=
  match selected with
  | None => (Ok Dismissed, fs)
  | Some filepath =>
      match entered with
      | None => (Ok Dismissed, fs)
      | Some le =>
          match Transformer.validate_subsample le with
          | Raise e => (Raise e, fs)
          | Ok value =>
              if truth value then
                match value with
                | Some v =>
                    match Transformer.transform fs filepath points v seed with
                    | (Raise e, fs') => (Raise e, fs')
                    | (Ok _, fs') => (Ok Saved, fs')
                    end
                | None => (Ok Warned, fs)
                end
              else (Ok Warned, fs)
          end
      end
  end.
End App.
End TransformerApp.

(** Every line that is not a comment line splits into three fields or
    more. *)
Definition well_formed (content : str) : bool :=
  forallb (fun l => is_comment l || (3 <=? length (str_split "," l))%nat)
          (readlines content).

(** The row that the line loop appends for a data line. *)
Definition row_of (line : str) : list str :=
  match str_split "," line with
  | x :: y :: z :: more => x :: y :: str_replace CRLF "" z :: more
  | row => row
  end.

(** * Properties *)

(** ** The result monad *)

Lemma bind_Ok {A B} (a : A) (k : A -> result B) : (Ok a ≫= k) = k a.
Proof. reflexivity. Qed.

Lemma bind_Raise {A B} (e : exn) (k : A -> result B) : (Raise e ≫= k) = Raise e.
Proof. reflexivity. Qed.

Lemma bind_Ok_inv {A B} (m : result A) (k : A -> result B) (b : B) :
  (m ≫= k) = Ok b -> exists a, m = Ok a /\ k a = Ok b.
Proof. destruct m as [a|e]; [eauto | discriminate]. Qed.

(** ** Strings *)

Lemma app_str_assoc (a b c : str) : (a +:+ b) +:+ c = a +:+ (b +:+ c).
Proof. induction a as [|x a IH]; simpl; [reflexivity | f_equal; exact IH]. Qed.

Lemma app_str_empty_r (a : str) : a +:+ "" = a.
Proof. induction a as [|x a IH]; simpl; [reflexivity | f_equal; exact IH]. Qed.

Lemma str_split_not_nil sep s : str_split sep s <> [].
Proof.
  destruct s as [|c s]; simpl; [discriminate|].
  destruct (Ascii.eqb c sep); [discriminate|].
  destruct (str_split sep s); discriminate.
Qed.

Lemma str_split_length sep s :
  length (str_split sep s) = S (count_char sep s).
Proof.
  induction s as [|c s IH]; simpl; [reflexivity|].
  destruct (Ascii.eqb c sep); simpl; [now rewrite IH|].
  destruct (str_split sep s) eqn:E; simpl in *; lia.
Qed.

Lemma str_split_no_sep sep s : contains sep s = false -> str_split sep s = [s].
Proof.
  induction s as [|c s IH]; simpl; [reflexivity|].
  intros [Hc Hs]%orb_false_elim. rewrite Hc, (IH Hs). reflexivity.
Qed.

Lemma str_split_field sep x rest :
  contains sep x = false ->
  str_split sep (x +:+ String sep rest) = x :: str_split sep rest.
Proof.
  induction x as [|c x IH]; simpl.
  - intros _. now rewrite Ascii.eqb_refl.
  - intros [Hc Hx]%orb_false_elim. rewrite Hc, (IH Hx). reflexivity.
Qed.

(** *** [str.replace] of the line terminator *)

Lemma strip_nil : strip "" = "".
Proof. reflexivity. Qed.

Lemma strip_crlf s : strip (String CR (String LF s)) = strip s.
Proof. reflexivity. Qed.

Lemma strip_one c : strip (String c "") = String c "".
Proof.
  unfold strip, str_replace. simpl. now rewrite andb_false_r.
Qed.

Lemma strip_not_cr c s : c <> CR -> strip (String c s) = String c (strip s).
Proof.
  intros Hc. unfold strip, str_replace.
  cbn [str_replace_from startswith CRLF].
  destruct (Ascii.eqb_spec CR c) as [E|_]; [congruence | reflexivity].
Qed.

Lemma strip_not_lf c d s :
  d <> LF -> strip (String c (String d s)) = String c (strip (String d s)).
Proof.
  intros Hd. unfold strip, str_replace.
  cbn [str_replace_from startswith CRLF].
  destruct (Ascii.eqb_spec LF d) as [E|_]; [congruence|].
  now rewrite andb_false_r.
Qed.

Lemma app_str_cons c (a b : str) : String c a +:+ b = String c (a +:+ b).
Proof. reflexivity. Qed.

Lemma strip_app_crlf a b : strip (a +:+ CRLF +:+ b) = strip a +:+ strip b.
Proof.
  remember (String.length a) as n eqn:Hn.
  revert a Hn. induction n as [n IH] using lt_wf_ind. intros a Hn.
  assert (IH' : forall a', (String.length a' < n)%nat ->
                 strip (a' +:+ CRLF +:+ b) = strip a' +:+ strip b).
  { intros a' Hlt. exact (IH _ Hlt a' eq_refl). }
  clear IH. subst n.
  destruct a as [|c [|d a]].
  - reflexivity.
  - rewrite strip_one. change (String c "" +:+ CRLF +:+ b)
      with (String c (String CR (String LF b))).
    rewrite strip_not_lf by discriminate. now rewrite strip_crlf.
  - rewrite !app_str_cons.
    destruct (ascii_dec c CR) as [->|Hc].
    + destruct (ascii_dec d LF) as [->|Hd].
      * rewrite !strip_crlf. apply IH'. simpl. lia.
      * rewrite !strip_not_lf by assumption.
        rewrite app_str_cons. f_equal.
        rewrite <- app_str_cons. apply IH'. simpl. lia.
    + rewrite !(strip_not_cr c) by assumption.
      rewrite app_str_cons. f_equal.
      rewrite <- app_str_cons. apply IH'. simpl. lia.
Qed.

Lemma strip_no_crlf s : has_crlf s = false -> strip s = s.
Proof.
  induction s as [|c s IH]; [reflexivity|].
  destruct s as [|d s]; [intros _; apply strip_one|].
  cbn [has_crlf]. intros [Hcd Hs]%orb_false_elim.
  destruct (ascii_dec c CR) as [->|Hc].
  - destruct (ascii_dec d LF) as [->|Hd]; [discriminate|].
    rewrite strip_not_lf by assumption. now rewrite IH.
  - rewrite strip_not_cr by assumption. now rewrite IH.
Qed.

Lemma no_cr_no_crlf s : contains CR s = false -> has_crlf s = false.
Proof.
  induction s as [|c s IH]; [reflexivity|].
  cbn [contains]. intros [Hc Hs]%orb_false_elim.
  destruct s as [|d s]; [reflexivity|].
  cbn [has_crlf]. rewrite Hc. simpl. auto.
Qed.

Lemma has_crlf_app_lf s :
  contains CR s = false -> has_crlf (s +:+ String LF "") = false.
Proof.
  induction s as [|c s IH]; [reflexivity|].
  cbn [contains]. intros [Hc Hs]%orb_false_elim.
  specialize (IH Hs). destruct s as [|d s].
  - cbn [String.append has_crlf]. now rewrite Hc.
  - rewrite !app_str_cons in *. cbn [has_crlf] in *. now rewrite Hc.
Qed.

Lemma strip_trailing_crlf z :
  contains LF z = false -> strip (z +:+ CRLF) = z.
Proof.
  induction z as [|c z IH]; [reflexivity|].
  cbn [contains]. intros [Hc Hz]%orb_false_elim.
  apply Ascii.eqb_neq in Hc.
  destruct z as [|d z].
  - change (String c "" +:+ CRLF) with (String c (String CR (String LF ""))).
    rewrite strip_not_lf by discriminate. now rewrite strip_crlf.
  - assert (Hd : d <> LF).
    { cbn [contains] in Hz. apply orb_false_elim in Hz as [Hd _].
      now apply Ascii.eqb_neq in Hd. }
    change (String c (String d z) +:+ CRLF)
      with (String c (String d (z +:+ CRLF))).
    rewrite strip_not_lf by assumption. f_equal. now apply IH.
Qed.

(** ** The line loop *)

Lemma clean_line_unfold acc c rest :
  clean_line acc (String c rest) =
  if Ascii.eqb c "#" then Ok acc
  else
    let row := str_split "," (String c rest) in
    z ← list_getitem row 2;
    row ← list_setitem row 2 (strip z);
    Ok (acc ++ [row]).
Proof.
  unfold clean_line, str_getitem. cbn [String.get]. rewrite bind_Ok.
  cbn [String.eqb]. now destruct (Ascii.eqb c "#").
Qed.

Lemma clean_line_comment acc rest : clean_line acc (String "#" rest) = Ok acc.
Proof. now rewrite clean_line_unfold. Qed.

Lemma clean_line_data acc line x y z more :
  line <> "" -> is_comment line = false ->
  str_split "," line = x :: y :: z :: more ->
  clean_line acc line = Ok (acc ++ [x :: y :: strip z :: more]).
Proof.
  destruct line as [|c rest]; [congruence|]. intros _ Hc Hs.
  rewrite clean_line_unfold. cbn [is_comment] in Hc. rewrite Hc.
  cbv zeta. rewrite Hs. reflexivity.
Qed.

Lemma clean_line_short acc line :
  is_comment line = false -> (length (str_split "," line) < 3)%nat ->
  clean_line acc line = Raise IndexError.
Proof.
  destruct line as [|c rest]; [reflexivity|]. intros Hc Hlen.
  rewrite clean_line_unfold. cbn [is_comment] in Hc. rewrite Hc.
  cbv zeta. destruct (str_split "," (String c rest)) as [|x [|y [|z more]]];
    simpl in Hlen; try reflexivity; lia.
Qed.

Lemma clean_line_inv acc line acc' :
  clean_line acc line = Ok acc' ->
  (is_comment line = true /\ acc' = acc) \/
  (is_comment line = false /\
   exists x y z more, str_split "," line = x :: y :: z :: more /\
                      acc' = acc ++ [x :: y :: strip z :: more]).
Proof.
  destruct line as [|c rest]; [discriminate|].
  rewrite clean_line_unfold. cbn [is_comment].
  destruct (Ascii.eqb c "#"); [intros [= <-]; now left|].
  cbv zeta. destruct (str_split "," (String c rest)) as [|x [|y [|z more]]];
    try discriminate.
  intros [= <-]. right. split; [reflexivity|]. now exists x, y, z, more.
Qed.

Lemma clean_line_raise acc line e :
  clean_line acc line = Raise e -> e = IndexError.
Proof.
  destruct line as [|c rest]; [now intros [= <-]|].
  rewrite clean_line_unfold. destruct (Ascii.eqb c "#"); [discriminate|].
  cbv zeta. destruct (str_split "," (String c rest)) as [|x [|y [|z more]]];
    now intros [= <-].
Qed.

Lemma for_each_app {A B} (body : A -> B -> result A) acc xs ys :
  for_each body acc (xs ++ ys) =
  acc' ← for_each body acc xs; for_each body acc' ys.
Proof.
  revert acc. induction xs as [|x xs IH]; intros acc; [reflexivity|].
  simpl. destruct (body acc x) as [a|e]; [apply IH | reflexivity].
Qed.

(** What the loop has appended once it has run to its end. *)
Lemma for_each_clean_line_inv lines : forall acc rows,
  for_each clean_line acc lines = Ok rows ->
  exists new, rows = acc ++ new /\
    (length new <= length lines)%nat /\
    length new = length (List.filter (fun l => negb (is_comment l)) lines) /\
    Forall (fun r => (3 <= length r)%nat) new /\
    (forallb (fun l => is_comment l || (length (str_split "," l) =? 3)%nat) lines
     = true -> Forall (fun r => length r = 3%nat) new).
Proof.
  induction lines as [|l lines IH]; intros acc rows.
  - intros [= <-]. exists []. rewrite app_nil_r. repeat split; auto.
  - simpl. destruct (clean_line acc l) as [acc'|e] eqn:E; [|discriminate].
    intros Hrest. destruct (IH _ _ Hrest) as (new & -> & Hlen & Hcnt & Hge & Heq).
    destruct (clean_line_inv _ _ _ E) as [[Hc ->]|(Hc & x & y & z & more & Hs & ->)].
    + exists new. rewrite Hc. simpl. repeat split; auto.
    + exists ((x :: y :: strip z :: more) :: new). rewrite Hc. simpl.
      rewrite <- app_assoc. repeat split; auto; try lia.
      * constructor; [simpl; lia | assumption].
      * intros [Hl Hls]%andb_true_iff. apply Nat.eqb_eq in Hl.
        constructor; [|now apply Heq].
        rewrite Hs in Hl. simpl in *. lia.
Qed.

(** The loop runs to its end when every data line has its three fields. *)
Lemma for_each_clean_line_ok lines : forall acc,
  forallb (fun l => is_comment l || (3 <=? length (str_split "," l))%nat) lines
  = true ->
  exists rows, for_each clean_line acc lines = Ok rows.
Proof.
  induction lines as [|l lines IH]; intros acc Hall; [now exists acc|].
  cbn [forallb] in Hall. apply andb_true_iff in Hall as [Hl Hls].
  cbn [for_each]. destruct l as [|c rest]; [discriminate|].
  rewrite clean_line_unfold. cbn [is_comment] in Hl.
  destruct (Ascii.eqb c "#"); [now apply IH|].
  cbn [orb] in Hl. apply Nat.leb_le in Hl. cbv zeta.
  destruct (str_split "," (String c rest)) as [|x [|y [|z more]]];
    simpl in Hl; try lia.
  now apply IH.
Qed.

Lemma for_each_clean_line_short lines line : forall acc,
  line ∈ lines -> is_comment line = false ->
  (length (str_split "," line) < 3)%nat ->
  for_each clean_line acc lines = Raise IndexError.
Proof.
  induction lines as [|l lines IH]; intros acc Hin Hc Hlen.
  - inversion Hin.
  - simpl. destruct (clean_line acc l) as [acc'|e] eqn:E.
    + cbn [bind]. apply elem_of_cons in Hin as [->|Hin].
      * rewrite clean_line_short in E by assumption. discriminate.
      * now apply IH.
    + now rewrite (clean_line_raise _ _ _ E).
Qed.

Lemma for_each_clean_line_comments lines : forall acc,
  Forall (fun l => is_comment l = true) lines ->
  for_each clean_line acc lines = Ok acc.
Proof.
  induction lines as [|l lines IH]; intros acc Hall; [reflexivity|].
  inversion Hall as [|? ? Hl Hls]; subst. simpl.
  destruct l as [|c rest]; [discriminate|]. cbn [is_comment] in Hl.
  rewrite clean_line_unfold, Hl. now apply IH.
Qed.

(** ** Floats: the product of a fraction and a row count *)

Section FloatBounds.
Local Open Scope Z_scope.

Lemma digits2_pos_size p : digits2_pos p = Pos.size p.
Proof. induction p; simpl; congruence. Qed.

Lemma digits2_pos_bounds p :
2 ^ (Zpos (digits2_pos p) - 1) <= Zpos p < 2 ^ Zpos (digits2_pos p).
Proof.
rewrite digits2_pos_size. split.
- pose proof (Pos.size_le p) as H.
  apply Pos2Z.pos_le_pos in H. rewrite Pos2Z.inj_pow in H.
  replace (Zpos (Pos.size p)) with (Z.succ (Zpos (Pos.size p) - 1)) in H by lia.
  rewrite Z.pow_succ_r in H by lia. change (Zpos p~0) with (2 * Zpos p) in H. lia.
- pose proof (Pos.size_gt p) as H.
  apply Pos2Z.pos_lt_pos in H. now rewrite Pos2Z.inj_pow in H.
Qed.

Lemma iter_pos_nat {A} (f : A -> A) p x :
SpecFloat.iter_pos f p x = Nat.iter (Pos.to_nat p) f x.
Proof.
revert x. induction p as [p IH|p IH|]; intros x; cbn [SpecFloat.iter_pos].
- rewrite !IH. rewrite Pos2Nat.inj_xI.
  replace (S (2 * Pos.to_nat p))%nat with (Pos.to_nat p + (Pos.to_nat p + 1))%nat by lia.
  rewrite !Nat.iter_add. simpl. reflexivity.
- rewrite !IH. rewrite Pos2Nat.inj_xO.
  replace (2 * Pos.to_nat p)%nat with (Pos.to_nat p + Pos.to_nat p)%nat by lia.
  now rewrite Nat.iter_add.
- reflexivity.
Qed.

Lemma shr_1_spec m r s :
0 <= m -> shr_1 (Build_shr_record m r s) = Build_shr_record (m / 2) (Z.odd m) (r || s).
Proof.
intros Hm. destruct m as [|[p|p|]|p]; try lia; cbn [shr_1].
- reflexivity.
- f_equal. rewrite Pos2Z.inj_xI. apply Z.div_unique with 1; lia.
- f_equal. rewrite Pos2Z.inj_xO. apply Z.div_unique with 0; lia.
- reflexivity.
Qed.

Lemma iter_shr_1 n : forall m r s,
0 <= m ->
exists r' s',
  Nat.iter n shr_1 (Build_shr_record m r s)
  = Build_shr_record (m / 2 ^ Z.of_nat n) r' s' /\
  (r' || s' = true -> r || s = true \/ (m / 2 ^ Z.of_nat n) * 2 ^ Z.of_nat n < m).
Proof.
induction n as [|n IH]; intros m r s Hm.
- exists r, s. simpl. rewrite Z.div_1_r. auto.
- destruct (IH m r s Hm) as (r1 & s1 & E & Hflag).
  cbn [Nat.iter nat_rect]. change (nat_rect _ _ _ n) with (Nat.iter n shr_1 (Build_shr_record m r s)).
  rewrite E.
  assert (Hp : 0 < 2 ^ Z.of_nat n) by (apply Z.pow_pos_nonneg; lia).
  assert (Hq : 0 <= m / 2 ^ Z.of_nat n) by (apply Z.div_pos; lia).
  rewrite shr_1_spec by assumption.
  rewrite Z.div_div by lia.
  replace (2 ^ Z.of_nat n * 2) with (2 ^ Z.of_nat (S n))
    by (rewrite Nat2Z.inj_succ, Z.pow_succ_r; lia).
  eexists _, _. split; [reflexivity|].
  intros Hor.
  assert (Hp' : 2 ^ Z.of_nat (S n) = 2 * 2 ^ Z.of_nat n)
    by (rewrite Nat2Z.inj_succ, Z.pow_succ_r; lia).
  pose proof (Z.mul_div_le m (2 ^ Z.of_nat (S n)) ltac:(lia)) as Hle.
  pose proof (Z.mul_div_le m (2 ^ Z.of_nat n) ltac:(lia)) as Hle1.
  assert (Hdd : m / 2 ^ Z.of_nat (S n) = m / 2 ^ Z.of_nat n / 2)
    by (rewrite Hp', Z.mul_comm, <- Z.div_div by lia; reflexivity).
  pose proof (Z.mul_div_le (m / 2 ^ Z.of_nat n) 2 ltac:(lia)) as Hle2.
  apply orb_true_iff in Hor as [Hodd|Hrs].
  + right.
    assert (m / 2 ^ Z.of_nat n <> 2 * (m / 2 ^ Z.of_nat n / 2)).
    { intros Heq. rewrite Heq in Hodd. rewrite Z.odd_mul in Hodd. discriminate. }
    rewrite Hdd, Hp'. nia.
  + destruct (Hflag Hrs) as [?|Hlt]; [now left|right].
    rewrite Hdd, Hp'. nia.
Qed.

Lemma fexp_eq e : fexp prec emax e = Z.max (e - 53) (-1074).
Proof. reflexivity. Qed.

Lemma shr_fexp_exact m e :
0 <= m ->
exists m' r' s' e',
  shr_fexp prec emax m e loc_Exact = (Build_shr_record m' r' s', e') /\
  (e' = e \/ (e < e' /\ e' = fexp prec emax (Zdigits2 m + e))) /\
  0 <= m' /\ m' * 2 ^ (e' - e) <= m /\
  (r' || s' = true -> m' * 2 ^ (e' - e) < m).
Proof.
intros Hm. unfold shr_fexp, shr. cbn [shr_record_of_loc].
destruct (fexp prec emax (Zdigits2 m + e) - e) as [|p|p] eqn:Hk.
- exists m, false, false, e. rewrite Z.sub_diag. simpl.
  repeat split; auto; try lia; discriminate.
- rewrite iter_pos_nat.
  destruct (iter_shr_1 (Pos.to_nat p) m false false Hm) as (r' & s' & E & Hflag).
  rewrite positive_nat_Z in *. rewrite E.
  assert (Hp : 0 < 2 ^ Zpos p) by (apply Z.pow_pos_nonneg; lia).
  exists (m / 2 ^ Zpos p), r', s', (e + Zpos p).
  replace (e + Zpos p - e) with (Zpos p) by lia.
  split; [reflexivity|]. split; [right; lia|].
  split; [apply Z.div_pos; lia|].
  split; [rewrite Z.mul_comm; apply Z.mul_div_le; lia|].
  intros Hor. destruct (Hflag Hor) as [?|?]; [discriminate | assumption].
- exists m, false, false, e. rewrite Z.sub_diag. simpl.
  repeat split; auto; try lia; discriminate.
Qed.

Lemma round_nearest_even_bound m r s :
let m' := round_nearest_even m (loc_of_shr_record (Build_shr_record m r s)) in
m' = m \/ (m' = m + 1 /\ r || s = true).
Proof.
destruct r, s; cbn [loc_of_shr_record round_nearest_even orb]; auto.
destruct (Z.even m); auto.
Qed.

Lemma Zdigits2_le m b :
0 < m -> 0 <= b -> m < 2 ^ b -> Zdigits2 m <= b.
Proof.
intros Hm Hb Hlt. destruct m as [|p|p]; try lia. cbn [Zdigits2].
pose proof (digits2_pos_bounds p) as [Hlo _].
destruct (Z_le_gt_dec (Zpos (digits2_pos p)) b) as [|Hgt]; [assumption|].
assert (2 ^ b <= 2 ^ (Zpos (digits2_pos p) - 1)) by (apply Z.pow_le_mono_r; lia).
lia.
Qed.

(** The product of a float at most one by an integer below 2^53 is, once
  rounded, at most that integer. *)
Lemma binary_round_aux_le mx ex N :
0 <= N < 2 ^ 53 -> ex <= 0 -> Zpos mx <= N * 2 ^ (- ex) ->
binary_round_aux prec emax false (Zpos mx) ex loc_Exact = S754_zero false \/
exists m e,
  binary_round_aux prec emax false (Zpos mx) ex loc_Exact = S754_finite false m e /\
  e <= 0 /\ Zpos m <= N * 2 ^ (- e).
Proof.
intros HN Hex Hle. unfold binary_round_aux.
destruct (shr_fexp_exact (Zpos mx) ex ltac:(lia))
  as (m1 & r1 & s1 & e1 & -> & He1 & Hm1 & Hfl1 & Hin1).
cbn [shr_m].
(* the exponent after the first shift *)
assert (Hpow : forall a b, 0 <= a -> 0 <= b -> 2 ^ (a + b) = 2 ^ a * 2 ^ b)
  by (intros; apply Z.pow_add_r; lia).
assert (Hpos : forall a, 0 <= a -> 0 < 2 ^ a)
  by (intros; apply Z.pow_pos_nonneg; lia).
assert (Hdig : forall m e, 0 < m -> e <= 0 -> m <= N * 2 ^ (- e) ->
                           Zdigits2 m + e <= 53).
{ intros m e Hm He Hme.
  assert (m < 2 ^ (53 - e)).
  { replace (53 - e) with (53 + - e) by lia. rewrite Hpow by lia.
    pose proof (Hpos (- e) ltac:(lia)). nia. }
  pose proof (Zdigits2_le m (53 - e) Hm ltac:(lia) H). lia. }
assert (He1' : ex <= e1 <= 0).
{ destruct He1 as [->|[Hlt ->]]; [lia|].
  rewrite fexp_eq in *. pose proof (Hdig (Zpos mx) ex ltac:(lia) Hex Hle). lia. }
assert (Hsplit : 2 ^ (- ex) = 2 ^ (- e1) * 2 ^ (e1 - ex)).
{ rewrite <- Hpow by lia. f_equal. lia. }
pose proof (Hpos (e1 - ex) ltac:(lia)) as Hp1.
pose proof (Hpos (- e1) ltac:(lia)) as Hp2.
set (m2 := round_nearest_even m1 _).
assert (Hm2 : 0 <= m2 /\ m2 <= N * 2 ^ (- e1)).
{ destruct (round_nearest_even_bound m1 r1 s1) as [E|[E Hor]];
    fold m2 in E; rewrite E.
  - split; [lia|]. rewrite Hsplit in Hle. nia.
  - split; [lia|]. specialize (Hin1 Hor). rewrite Hsplit in Hle. nia. }
clearbody m2.
destruct (shr_fexp_exact m2 e1 ltac:(lia))
  as (m3 & r3 & s3 & e3 & -> & He3 & Hm3 & Hfl3 & _).
cbn [shr_m].
assert (He3' : e1 <= e3 <= 0).
{ destruct He3 as [->|[Hlt ->]]; [lia|].
  rewrite fexp_eq in *. destruct (Z.eq_dec m2 0) as [->|Hnz].
  - cbn [Zdigits2] in *. lia.
  - pose proof (Hdig m2 e1 ltac:(lia) ltac:(lia) ltac:(lia)). lia. }
assert (Hsplit3 : 2 ^ (- e1) = 2 ^ (- e3) * 2 ^ (e3 - e1)).
{ rewrite <- Hpow by lia. f_equal. lia. }
pose proof (Hpos (e3 - e1) ltac:(lia)) as Hp3.
pose proof (Hpos (- e3) ltac:(lia)) as Hp4.
destruct m3 as [|m3|m3]; [now left | right | lia].
exists m3, e3.
replace (e3 <=? emax - prec) with true
  by (symmetry; apply Z.leb_le; unfold emax, prec; lia).
split; [reflexivity|]. split; [lia|].
destruct Hm2 as [_ Hm2]. rewrite Hsplit3 in Hm2. nia.
Qed.

Lemma binary_round_aux_canonical s m e :
fexp prec emax (Zdigits2 (Zpos m) + e) <= e -> e <= 971 ->
binary_round_aux prec emax s (Zpos m) e loc_Exact = S754_finite s m e.
Proof.
intros Hf He. unfold binary_round_aux.
assert (Hshr : shr_fexp prec emax (Zpos m) e loc_Exact
               = (Build_shr_record (Zpos m) false false, e)).
{ unfold shr_fexp, shr. cbn [shr_record_of_loc].
  destruct (fexp prec emax (Zdigits2 (Zpos m) + e) - e) eqn:Hk;
    [reflexivity | lia | reflexivity]. }
rewrite Hshr. cbn [shr_m loc_of_shr_record round_nearest_even].
rewrite Hshr. cbn [shr_m].
replace (e <=? emax - prec) with true
  by (symmetry; apply Z.leb_le; unfold emax, prec; lia).
reflexivity.
Qed.

Lemma iter_xO_value q p : Zpos (Pos.iter xO q p) = Zpos q * 2 ^ Zpos p.
Proof.
induction p as [|p IH] using Pos.peano_ind.
- simpl. lia.
- rewrite Pos.iter_succ, Pos2Z.inj_xO, IH, Pos2Z.inj_succ, Z.pow_succ_r; lia.
Qed.

Lemma iter_xO_digits q p :
Zpos (digits2_pos (Pos.iter xO q p)) = Zpos (digits2_pos q) + Zpos p.
Proof.
induction p as [|p IH] using Pos.peano_ind.
- simpl. lia.
- rewrite Pos.iter_succ. cbn [digits2_pos]. lia.
Qed.

(** An integer below 2^53 is a float, exactly. *)
Lemma binary_round_small s q :
Zpos q < 2 ^ 53 ->
exists m e, binary_round prec emax s q 0 = S754_finite s m e /\
            e <= 0 /\ Zpos m = Zpos q * 2 ^ (- e) /\
            fexp prec emax (Zdigits2 (Zpos m) + e) = e.
Proof.
intros Hq. unfold binary_round, shl_align.
pose proof (Zdigits2_le (Zpos q) 53 ltac:(lia) ltac:(lia) Hq) as Hd.
cbn [Zdigits2] in Hd.
assert (H1 : 1 <= Zpos (digits2_pos q)) by lia.
rewrite fexp_eq.
destruct (Z.max (Zpos (digits2_pos q) + 0 - 53) (-1074) - 0) as [|p|p] eqn:Hk; try lia.
- assert (Hc : fexp prec emax (Zdigits2 (Zpos q) + 0) = 0)
    by (rewrite fexp_eq; cbn [Zdigits2]; lia).
  exists q, 0. split; [|split; [lia | split; [simpl; lia | exact Hc]]].
  apply binary_round_aux_canonical; lia.
- set (e := Z.max (Z.pos (digits2_pos q) + 0 - 53) (-1074)) in *.
  assert (Hc : fexp prec emax (Zdigits2 (Zpos (Pos.iter xO q p)) + e) = e)
    by (rewrite fexp_eq; cbn [Zdigits2]; rewrite iter_xO_digits; lia).
  exists (Pos.iter xO q p), e.
  split; [|split; [lia | split; [|exact Hc]]].
  + apply binary_round_aux_canonical; lia.
  + rewrite iter_xO_value. f_equal. f_equal. lia.
Qed.

Lemma float_of_int_small N :
0 < N < 2 ^ 53 ->
exists m e, float_of_int N = Ok (S754_finite false m e) /\
            e <= 0 /\ Zpos m = N * 2 ^ (- e) /\
            fexp prec emax (Zdigits2 (Zpos m) + e) = e.
Proof.
intros HN. destruct N as [|q|q]; try lia.
destruct (binary_round_small false q ltac:(lia)) as (m & e & E & He & Hm & Hc).
exists m, e. unfold float_of_int. cbn [binary_normalize]. now rewrite E.
Qed.

Lemma nearest_away_le m e N :
e <= 0 -> Zpos m <= N * 2 ^ (- e) -> 0 <= nearest_away m e <= N.
Proof.
intros He Hle. unfold nearest_away.
destruct (Z.leb_spec 0 e) as [H0|H0].
- replace e with 0 in * by lia. simpl in *. lia.
- assert (Hd : 0 < 2 ^ (- e)) by (apply Z.pow_pos_nonneg; lia).
  set (d := 2 ^ (- e)) in *.
  pose proof (Z.div_mod (Zpos m) d ltac:(lia)) as Hdm.
  pose proof (Z.mod_pos_bound (Zpos m) d Hd) as Hmod.
  assert (0 <= Zpos m / d) by (apply Z.div_pos; lia).
  destruct (Z.leb_spec d (2 * (Zpos m mod d))); nia.
Qed.

Lemma int_round_finite m e N :
0 <= N < 2 ^ 53 -> e <= 0 -> Zpos m <= N * 2 ^ (- e) ->
int (round (S754_finite false m e)) = Ok (nearest_away m e).
Proof.
intros HN He Hle. pose proof (nearest_away_le m e N He Hle) as Hq.
cbn [round cond_Zopp]. destruct (nearest_away m e) as [|q|q] eqn:Eq; try lia.
- reflexivity.
- cbn [binary_normalize].
  destruct (binary_round_small false q ltac:(lia))
    as (m' & e' & -> & He' & Hm' & _).
  cbn [int cond_Zopp]. f_equal.
  destruct (Z.leb_spec 0 e') as [H0|H0].
  + replace e' with 0 in * by lia. simpl in *. lia.
  + rewrite Hm'. apply Z.div_mul.
    assert (0 < 2 ^ (- e')) by (apply Z.pow_pos_nonneg; lia). lia.
Qed.

Lemma int_round_le m e N :
0 <= N < 2 ^ 53 -> e <= 0 -> Zpos m <= N * 2 ^ (- e) ->
exists n, int (round (S754_finite false m e)) = Ok n /\ 0 <= n <= N.
Proof.
intros HN He Hle. exists (nearest_away m e).
split; [now apply (int_round_finite m e N) | now apply nearest_away_le].
Qed.

Lemma nearest_away_exact m e N :
e <= 0 -> Zpos m = N * 2 ^ (- e) -> nearest_away m e = N.
Proof.
intros He Hm. unfold nearest_away.
destruct (Z.leb_spec 0 e) as [H0|H0].
- replace e with 0 in * by lia. simpl in *. lia.
- assert (Hd : 0 < 2 ^ (- e)) by (apply Z.pow_pos_nonneg; lia).
  rewrite Hm, Z.mod_mul, Z.div_mul by lia.
  destruct (Z.leb_spec (2 ^ (- e)) (2 * 0)); lia.
Qed.

Lemma compare_cont_le_true m c :
match Some (Pos.compare_cont Eq m c) with
| Some Lt | Some Eq => true
| _ => false
end = true -> Zpos m <= Zpos c.
Proof.
rewrite Pos.compare_cont_spec.
destruct (Pos.compare_spec m c); simpl; try discriminate; lia.
Qed.

(** A valid float between zero and one: its shape and its size. *)
Lemma fraction_shape f :
float_valid f = true ->
float_lt float_zero f = true -> float_le f float_one = true ->
exists m e, f = S754_finite false m e /\ e <= -52 /\ Zpos m <= 2 ^ (- e).
Proof.
intros Hv Hlt Hle.
destruct f as [s|s| |s m e]; try discriminate.
- destruct s; discriminate.
- destruct s; try discriminate.
  exists m, e. split; [reflexivity|].
  unfold float_le, float_one, SFleb, SFcompare in Hle.
  unfold float_valid, valid_binary, bounded, canonical_mantissa in Hv.
  apply andb_true_iff in Hv as [Hc _]. apply Z.eqb_eq in Hc.
  change (SpecFloat.fexp Py.prec Py.emax) with (fexp prec emax) in Hc.
  rewrite fexp_eq in Hc.
  pose proof (digits2_pos_bounds m) as [_ Hhi].
  destruct (Z.compare_spec e (-52)) as [->|Hlt'|Hgt]; try discriminate.
  + split; [lia|].
    apply compare_cont_le_true in Hle.
    change (2 ^ (- -52)) with 4503599627370496. exact Hle.
  + split; [lia|].
    assert (Zpos (digits2_pos m) <= 53) by lia.
    assert (2 ^ Zpos (digits2_pos m) <= 2 ^ 53) by (apply Z.pow_le_mono_r; lia).
    assert (2 ^ 53 <= 2 ^ (- e)) by (apply Z.pow_le_mono_r; lia).
    lia.
Qed.

(** The number of rows to draw, for a fraction in (0, 1], lies between
  0 and the number of rows. *)
Lemma sample_size_bounds f (N : nat) :
float_valid f = true ->
float_lt float_zero f = true -> float_le f float_one = true ->
Z.of_nat N < 2 ^ 53 ->
exists n, Pandas.sample_size f N = Ok n /\ 0 <= n <= Z.of_nat N.
Proof.
intros Hv Hlt Hle HN.
destruct (fraction_shape f Hv Hlt Hle) as (mf & ef & -> & Hef & Hmf).
unfold Pandas.sample_size.
destruct (Z.eq_dec (Z.of_nat N) 0) as [E0|Hnz].
- rewrite E0. exists 0. split; [reflexivity | lia].
- destruct (float_of_int_small (Z.of_nat N) ltac:(lia))
    as (mn & en & -> & Hen & Hmn & _).
  rewrite bind_Ok. unfold float_mul. cbn [SFmul xorb].
  assert (Hpn : 0 < 2 ^ (- en)) by (apply Z.pow_pos_nonneg; lia).
  assert (Hpf : 0 < 2 ^ (- ef)) by (apply Z.pow_pos_nonneg; lia).
  assert (Hprod : Zpos (mf * mn) <= Z.of_nat N * 2 ^ (- (ef + en))).
  { replace (- (ef + en)) with (- ef + - en) by lia.
    rewrite Z.pow_add_r by lia. rewrite Pos2Z.inj_mul, Hmn. nia. }
  destruct (binary_round_aux_le (mf * mn) (ef + en) (Z.of_nat N)
              ltac:(lia) ltac:(lia) Hprod) as [->|(m & e & -> & He & Hm)].
  + exists 0. split; [reflexivity | lia].
  + apply int_round_le; [lia | assumption | assumption].
Qed.

Lemma Zdigits2_unique m d :
0 < m -> 2 ^ (d - 1) <= m < 2 ^ d -> Zdigits2 m = d.
Proof.
intros Hm [Hlo Hhi]. destruct m as [|p|p]; try lia. cbn [Zdigits2].
pose proof (digits2_pos_bounds p) as [Hlo' Hhi'].
assert (0 < d).
{ destruct (Z_lt_le_dec 0 d); [assumption|].
  assert (2 ^ d <= 2 ^ 0) by (apply Z.pow_le_mono_r; lia). simpl in *. lia. }
destruct (Z.lt_trichotomy (Zpos (digits2_pos p)) d) as [Hlt|[Heq|Hgt]];
  [|assumption|].
- assert (2 ^ Zpos (digits2_pos p) <= 2 ^ (d - 1)) by (apply Z.pow_le_mono_r; lia).
  lia.
- assert (2 ^ d <= 2 ^ (Zpos (digits2_pos p) - 1)) by (apply Z.pow_le_mono_r; lia).
  lia.
Qed.

Lemma shr_fexp_shift m e k :
0 <= m -> fexp prec emax (Zdigits2 m + e) - e = k -> 0 < k ->
exists r' s',
  shr_fexp prec emax m e loc_Exact = (Build_shr_record (m / 2 ^ k) r' s', e + k) /\
  (r' || s' = true -> m / 2 ^ k * 2 ^ k < m).
Proof.
intros Hm Hk Hpos. unfold shr_fexp, shr. cbn [shr_record_of_loc].
rewrite Hk. destruct k as [|p|p]; try lia.
rewrite iter_pos_nat.
destruct (iter_shr_1 (Pos.to_nat p) m false false Hm) as (r' & s' & E & Hflag).
rewrite positive_nat_Z in *. rewrite E. exists r', s'.
split; [reflexivity|]. intros Hor.
destruct (Hflag Hor) as [?|?]; [discriminate | assumption].
Qed.

(** Multiplying by 1.0 changes nothing. *)
Lemma float_mul_one m e :
fexp prec emax (Zdigits2 (Zpos m) + e) = e -> e <= 0 ->
float_mul float_one (S754_finite false m e) = S754_finite false m e.
Proof.
intros Hc He. unfold float_mul, float_one. cbn [SFmul xorb].
unfold binary_round_aux.
assert (Hmul : Zpos (4503599627370496 * m) = Zpos m * 2 ^ 52)
  by (rewrite Pos2Z.inj_mul; change (2 ^ 52) with 4503599627370496; lia).
pose proof (digits2_pos_bounds m) as [Hlo Hhi].
assert (Hdig : Zdigits2 (Zpos (4503599627370496 * m))
               = Zpos (digits2_pos m) + 52).
{ apply Zdigits2_unique; [lia|]. rewrite Hmul.
  replace (Zpos (digits2_pos m) + 52 - 1) with ((Zpos (digits2_pos m) - 1) + 52) by lia.
  rewrite !Z.pow_add_r by lia. change (2 ^ 52) with 4503599627370496. lia. }
destruct (shr_fexp_shift (Zpos (4503599627370496 * m)) (-52 + e) 52
            ltac:(lia)) as (r' & s' & -> & Hflag); [|lia|].
{ rewrite Hdig. cbn [Zdigits2] in Hc.
  replace (Zpos (digits2_pos m) + 52 + (-52 + e))
    with (Zpos (digits2_pos m) + e) by lia. lia. }
rewrite Hmul, Z.div_mul in * by (change (2 ^ 52) with 4503599627370496; lia).
assert (r' = false /\ s' = false) as [-> ->].
{ destruct r', s'; auto; exfalso;
    assert (Zpos m * 2 ^ 52 < Zpos m * 2 ^ 52) by (now apply Hflag); lia. }
cbn [shr_m loc_of_shr_record round_nearest_even].
replace (-52 + e + 52) with e by lia.
assert (Hshr : shr_fexp prec emax (Zpos m) e loc_Exact
               = (Build_shr_record (Zpos m) false false, e)).
{ unfold shr_fexp, shr. cbn [shr_record_of_loc]. rewrite Hc, Z.sub_diag.
  reflexivity. }
rewrite Hshr. cbn [shr_m].
replace (e <=? emax - prec) with true
  by (symmetry; apply Z.leb_le; unfold emax, prec; lia).
reflexivity.
Qed.

(** With the fraction 1.0 every row is drawn. *)
Lemma sample_size_one (N : nat) :
Z.of_nat N < 2 ^ 53 -> Pandas.sample_size float_one N = Ok (Z.of_nat N).
Proof.
intros HN. unfold Pandas.sample_size.
destruct (Z.eq_dec (Z.of_nat N) 0) as [E0|Hnz].
- rewrite E0. reflexivity.
- destruct (float_of_int_small (Z.of_nat N) ltac:(lia))
    as (mn & en & -> & Hen & Hmn & Hc).
  rewrite bind_Ok, float_mul_one by assumption.
  rewrite (int_round_finite mn en (Z.of_nat N)) by lia.
  f_equal. now apply nearest_away_exact.
Qed.

(** With no row there is nothing to draw, whatever the fraction in (0, 1]. *)
Lemma sample_size_no_rows f :
float_lt float_zero f = true -> float_le f float_one = true ->
Pandas.sample_size f 0 = Ok 0.
Proof.
intros Hlt Hle. destruct f as [s|s| |s m e]; try discriminate.
- destruct s; discriminate.
- destruct s; [discriminate | reflexivity].
Qed.

(** The fraction 0.0 asks for no row. *)
Lemma sample_size_zero (N : nat) :
Z.of_nat N < 2 ^ 53 -> Pandas.sample_size float_zero N = Ok 0.
Proof.
intros HN. unfold Pandas.sample_size.
destruct (Z.eq_dec (Z.of_nat N) 0) as [E0|Hnz].
- rewrite E0. reflexivity.
- destruct (float_of_int_small (Z.of_nat N) ltac:(lia))
    as (mn & en & -> & _). reflexivity.
Qed.

End FloatBounds.

(** ** Paths *)

Section Paths.
Import PosixPath.

Lemma contains_app c a b : contains c (a +:+ b) = contains c a || contains c b.
Proof.
induction a as [|x a IH]; [reflexivity|].
rewrite app_str_cons. cbn [contains]. now rewrite IH, orb_assoc.
Qed.

Lemma length_app_str a b :
String.length (a +:+ b) = (String.length a + String.length b)%nat.
Proof. induction a as [|x a IH]; simpl; [reflexivity | now rewrite IH]. Qed.

Lemma rfind_from_absent c s : forall i last,
contains c s = false -> rfind_from c s i last = last.
Proof.
induction s as [|a s IH]; intros i last; [reflexivity|].
cbn [contains rfind_from]. intros [Ha Hs]%orb_false_elim.
rewrite Ha. now apply IH.
Qed.

Lemma rfind_from_app c a b : forall i last,
rfind_from c (a +:+ b) i last
= rfind_from c b (i + String.length a) (rfind_from c a i last).
Proof.
induction a as [|x a IH]; intros i last.
- simpl. now rewrite Nat.add_0_r.
- rewrite app_str_cons. cbn [rfind_from String.length]. rewrite IH.
  now replace (S i + String.length a)%nat with (i + S (String.length a))%nat by lia.
Qed.

Lemma rfind_last c a b :
contains c b = false ->
rfind c (a +:+ String c b) = Z.of_nat (String.length a).
Proof.
intros Hb. unfold rfind. rewrite rfind_from_app. cbn [rfind_from].
rewrite Ascii.eqb_refl. now apply rfind_from_absent.
Qed.

Lemma slice_to_app a b : slice_to (a +:+ b) (String.length a) = a.
Proof.
induction a as [|x a IH]; [now destruct b|].
rewrite app_str_cons. simpl. now rewrite IH.
Qed.

Lemma slice_from_app a b : slice_from (a +:+ b) (String.length a) = b.
Proof.
induction a as [|x a IH]; [now destruct b|].
rewrite app_str_cons. simpl. exact IH.
Qed.

Lemma rstrip_char_snoc c s : rstrip_char c (s +:+ String c "") = rstrip_char c s.
Proof.
induction s as [|a s IH].
- simpl. now rewrite Ascii.eqb_refl.
- rewrite app_str_cons. cbn [rstrip_char]. now rewrite IH.
Qed.

Lemma rstrip_char_id c s : endswith s c = false -> rstrip_char c s = s.
Proof.
induction s as [|a s IH]; [reflexivity|].
destruct s as [|b s].
- simpl. now intros ->.
- intros Hs. change (endswith (String a (String b s)) c)
    with (endswith (String b s) c) in Hs.
  specialize (IH Hs). cbn [rstrip_char] in *. now rewrite IH.
Qed.

Lemma endswith_all_char c s :
s <> "" -> endswith s c = false -> all_char c s = false.
Proof.
induction s as [|a s IH]; [congruence|]. intros _.
destruct s as [|b s].
- simpl. intros ->. reflexivity.
- intros Hs. change (endswith (String a (String b s)) c)
    with (endswith (String b s) c) in Hs.
  cbn [all_char] in *. rewrite (IH ltac:(discriminate) Hs).
  now rewrite andb_false_r.
Qed.

Lemma all_char_snoc c s : all_char c (s +:+ String c "") = all_char c s.
Proof.
induction s as [|a s IH].
- simpl. now rewrite Ascii.eqb_refl.
- rewrite app_str_cons. cbn [all_char]. now rewrite IH.
Qed.

Lemma eqb_snoc_nil s c : String.eqb (s +:+ String c "") "" = false.
Proof. now destruct s. Qed.

Lemma split_dir_file dir name :
endswith dir "/" = false -> contains "/" name = false ->
split (dir +:+ "/" +:+ name) = (if String.eqb dir "" then "/" else dir, name).
Proof.
intros Hd Hn. unfold split.
change (dir +:+ "/" +:+ name) with (dir +:+ String "/" name).
rewrite rfind_last by assumption.
replace (Z.to_nat (Z.of_nat (String.length dir) + 1))
  with (String.length (dir +:+ String "/" "")) by (rewrite length_app_str; simpl; lia).
replace (dir +:+ String "/" name) with ((dir +:+ String "/" "") +:+ name)
  by (now rewrite app_str_assoc).
rewrite slice_to_app, slice_from_app, eqb_snoc_nil, all_char_snoc.
cbn [negb andb]. destruct dir as [|a dir]; [reflexivity|].
rewrite endswith_all_char by (assumption || discriminate).
cbn [negb String.eqb]. rewrite rstrip_char_snoc, rstrip_char_id by assumption.
reflexivity.
Qed.

Lemma other_than_dot_cons a p i n :
other_than_dot (String a p) (S i) n = other_than_dot p i n.
Proof.
revert i. induction n as [|n IH]; intros i; [reflexivity|].
cbn [other_than_dot String.get]. destruct (String.get i p); [|reflexivity].
now rewrite IH.
Qed.

Lemma other_than_dot_prefix stem rest :
other_than_dot (stem +:+ rest) 0 (String.length stem) = negb (all_char "." stem).
Proof.
induction stem as [|a stem IH]; [reflexivity|].
rewrite app_str_cons. cbn [String.length other_than_dot String.get all_char].
destruct (Ascii.eqb a "."); [|reflexivity].
now rewrite other_than_dot_cons, IH.
Qed.

Lemma splitext_stem_ext stem ext :
contains "/" stem = false -> contains "/" ext = false ->
contains "." ext = false -> all_char "." stem = false ->
splitext (stem +:+ "." +:+ ext) = (stem, "." +:+ ext).
Proof.
intros Hs1 Hs2 Hd Hnd. unfold splitext.
change (stem +:+ "." +:+ ext) with (stem +:+ String "." ext).
assert (Hsep : rfind "/" (stem +:+ String "." ext) = (-1)%Z).
{ unfold rfind. apply rfind_from_absent. rewrite contains_app, Hs1.
  cbn [contains]. now rewrite Hs2. }
rewrite Hsep, rfind_last by assumption.
replace (-1 <? Z.of_nat (String.length stem))%Z with true
  by (symmetry; apply Z.ltb_lt; lia).
replace (Z.to_nat (Z.of_nat (String.length stem) - (-1 + 1)))
  with (String.length stem) by lia.
change (Z.to_nat (-1 + 1)) with 0%nat.
rewrite other_than_dot_prefix, Hnd, Nat2Z.id, slice_to_app, slice_from_app.
reflexivity.
Qed.

Lemma xlsx_path_replaces_extension dir stem ext :
endswith dir "/" = false ->
contains "/" stem = false -> contains "/" ext = false ->
contains "." ext = false -> all_char "." stem = false ->
Converter._xlsx_path (dir +:+ "/" +:+ stem +:+ "." +:+ ext)
= dir +:+ "/" +:+ stem +:+ ".xlsx".
Proof.
intros Hd Hs1 Hs2 Hdot Hnd. unfold Converter._xlsx_path.
rewrite split_dir_file; [|assumption|].
2:{ rewrite contains_app, Hs1. cbn [String.append contains]. now rewrite Hs2. }
rewrite splitext_stem_ext by assumption. cbn [fst]. unfold join.
destruct stem as [|a stem]; [discriminate|].
cbn [contains] in Hs1. apply orb_false_elim in Hs1 as [Ha _].
rewrite app_str_cons. cbn [startswith].
rewrite Ascii.eqb_sym, Ha. cbn [andb].
destruct dir as [|b dir]; [reflexivity|].
cbn [String.eqb]. rewrite Hd. reflexivity.
Qed.

End Paths.

(** ** Frames and sampling *)

Lemma mapM_getitem {A} (l : list A) (locs : list nat) :
  Forall (fun i => (i < length l)%nat) locs ->
  exists xs, mapM (list_getitem l) locs = Ok xs /\
             Forall2 (fun i x => l !! i = Some x) locs xs.
Proof.
  induction locs as [|i locs IH]; intros Hall.
  - exists []. split; [reflexivity | constructor].
  - inversion Hall as [|? ? Hi Hlocs]; subst.
    destruct (IH Hlocs) as (xs & E & Hxs).
    destruct (lookup_lt_is_Some_2 l i Hi) as [x Hx].
    exists (x :: xs). split; [|now constructor].
    assert (Hg : list_getitem l i = Ok x) by (unfold list_getitem; now rewrite Hx).
    cbn [mapM]. rewrite Hg, bind_Ok, E. reflexivity.
Qed.

Lemma max_list_le_bound (ns : list nat) b :
  Forall (fun n => (n <= b)%nat) ns -> (max_list ns <= b)%nat.
Proof. induction 1; simpl; lia. Qed.

Lemma fill_full w (row : list str) :
  (w <= length row)%nat -> Pandas.fill w row = map Some row.
Proof.
  intros Hw. unfold Pandas.fill.
  replace (w - length row)%nat with 0%nat by lia. simpl. apply app_nil_r.
Qed.

Lemma of_rows_values_3 (data : list (list str)) :
  Forall (fun r => length r = 3%nat) data ->
  Pandas.values (Pandas.of_rows data) = map (map Some) data.
Proof.
  intros Hall. cbn [Pandas.of_rows Pandas.values].
  assert (Hmax : (max_list (map length data) <= 3)%nat).
  { apply max_list_le_bound. apply Forall_map.
    eapply Forall_impl; [exact Hall|]. intros r Hr. simpl in *. lia. }
  revert Hmax. generalize (max_list (map length data)). intros w Hw.
  induction Hall as [|r data Hr Hall IH]; [reflexivity|].
  cbn [map]. f_equal; [apply fill_full; lia | exact IH].
Qed.

Section Sampling.
Context `{RandomState}.

Lemma take_choice (df : Pandas.DataFrame) seed size :
length (Pandas.values df) = length (Pandas.index df) ->
(size <= length (Pandas.index df))%nat ->
exists labels rows,
  Pandas.take df (choice seed (length (Pandas.index df)) size)
  = Ok {| Pandas.index := labels; Pandas.values := rows |} /\
  length labels = size /\
  Forall2 (fun i g => Pandas.values df !! i = Some g)
          (choice seed (length (Pandas.index df)) size) rows.
Proof.
intros Hlen Hsize. unfold Pandas.take.
set (locs := choice seed (length (Pandas.index df)) size).
assert (Hlocs : Forall (fun i => (i < length (Pandas.index df))%nat) locs).
{ apply Forall_forall. intros i Hi. now apply (choice_lt seed _ size). }
destruct (mapM_getitem (Pandas.index df) locs Hlocs) as (labels & -> & Hl).
rewrite <- Hlen in Hlocs.
destruct (mapM_getitem (Pandas.values df) locs Hlocs) as (rows & -> & Hr).
exists labels, rows. split; [reflexivity|]. split; [|assumption].
rewrite <- (Forall2_length _ _ _ Hl). now apply choice_length.
Qed.

Lemma of_rows_lengths data :
length (Pandas.index (Pandas.of_rows data)) = length data /\
length (Pandas.values (Pandas.of_rows data)) = length data.
Proof.
cbn [Pandas.of_rows Pandas.index Pandas.values].
now rewrite length_seq, length_map.
Qed.

(** Sampling succeeds when the size computed lies within the frame. *)
Lemma sample_ok data frac seed n :
Pandas.sample_size frac (length data) = Ok n ->
(0 <= n <= Z.of_nat (length data))%Z ->
exists df,
  Pandas.sample (Pandas.of_rows data) frac seed = Ok df /\
  length (Pandas.index df) = Z.to_nat n /\
  length (Pandas.values df) = Z.to_nat n /\
  Forall2 (fun i g => Pandas.values (Pandas.of_rows data) !! i = Some g)
          (choice seed (length data) (Z.to_nat n)) (Pandas.values df).
Proof.
intros Hn Hrange. unfold Pandas.sample.
destruct (of_rows_lengths data) as [Hi Hv].
rewrite Hi, Hn, bind_Ok.
replace (n <? 0)%Z with false by (symmetry; apply Z.ltb_ge; lia).
replace (Z.of_nat (length data) <? n)%Z with false
  by (symmetry; apply Z.ltb_ge; lia).
destruct (take_choice (Pandas.of_rows data) seed (Z.to_nat n))
  as (labels & rows & E & Hl & Hr); [lia | lia |].
rewrite Hi in E, Hr. rewrite E.
eexists. split; [reflexivity|]. cbn [Pandas.index Pandas.values].
split; [assumption|]. split; [|assumption].
rewrite <- (Forall2_length _ _ _ Hr). apply choice_length. lia.
Qed.

(** Sampling raises when the size computed lies outside the frame, or
  cannot be computed. *)
Lemma sample_out_of_range data frac seed n :
Pandas.sample_size frac (length data) = Ok n ->
(n < 0 \/ Z.of_nat (length data) < n)%Z ->
Pandas.sample (Pandas.of_rows data) frac seed = Raise ValueError.
Proof.
intros Hn Hrange. unfold Pandas.sample.
destruct (of_rows_lengths data) as [Hi _]. rewrite Hi, Hn, bind_Ok.
destruct (Z.ltb_spec n 0); [reflexivity|].
destruct (Z.ltb_spec (Z.of_nat (length data)) n); [reflexivity | lia].
Qed.

Lemma sample_no_size data frac seed e :
Pandas.sample_size frac (length data) = Raise e ->
Pandas.sample (Pandas.of_rows data) frac seed = Raise e.
Proof.
intros Hn. unfold Pandas.sample.
destruct (of_rows_lengths data) as [Hi _]. now rewrite Hi, Hn.
Qed.

End Sampling.

(** ** A generator to run the definitions with *)

Lemma NoDup_rotate {A} n (l : list A) : NoDup l -> NoDup (rotate n l).
Proof.
  intros Hl. unfold rotate. rewrite Permutation_app_comm. now rewrite take_drop.
Qed.

Lemma walk_length seed a size : (size <= a)%nat -> length (walk seed a size) = size.
Proof.
  intros Hs. unfold walk. rewrite length_take_le; [reflexivity|].
  now rewrite length_rotate, length_seq.
Qed.

Lemma walk_NoDup seed a size : (size <= a)%nat -> NoDup (walk seed a size).
Proof.
  intros _. unfold walk.
  eapply sublist_NoDup; [apply NoDup_rotate, NoDup_seq | apply sublist_take].
Qed.

Lemma walk_lt seed a size i :
  (size <= a)%nat -> i ∈ walk seed a size -> (i < a)%nat.
Proof.
  intros _ Hi. unfold walk in Hi.
  apply elem_of_take in Hi as (j & Hj & _).
  apply list_elem_of_lookup_2 in Hj. apply elem_of_rotate, elem_of_seq in Hj. lia.
Qed.

#[local] Instance walker : RandomState :=
  {| choice := walk;
     choice_length := walk_length;
     choice_NoDup := walk_NoDup;
     choice_lt := walk_lt |}.


(** ** Reading a file *)

Lemma open_rb_readable (fs : gmap string file) path f :
  fs !! path = Some f -> readable f = true -> open_rb fs path = Ok (content f).
Proof. intros Hf Hr. unfold open_rb. now rewrite Hf, Hr. Qed.

Lemma open_rb_missing (fs : gmap string file) path :
  (forall f, fs !! path = Some f -> readable f = false) ->
  open_rb fs path = Raise IOError.
Proof.
  intros Hno. unfold open_rb. destruct (fs !! path) as [f|] eqn:E; [|reflexivity].
  now rewrite (Hno f eq_refl).
Qed.

Lemma open_rb_inv (fs : gmap string file) path c :
  open_rb fs path = Ok c ->
  exists f, fs !! path = Some f /\ readable f = true /\ content f = c.
Proof.
  unfold open_rb. destruct (fs !! path) as [f|]; [|discriminate].
  destruct (readable f) eqn:Hr; [|discriminate].
  intros [= <-]. now exists f.
Qed.

Lemma three_fields_at_least lines :
  forallb (fun l => is_comment l || (length (str_split "," l) =? 3)%nat) lines
  = true ->
  forallb (fun l => is_comment l || (3 <=? length (str_split "," l))%nat) lines
  = true.
Proof.
  induction lines as [|l lines IH]; [reflexivity|].
  cbn [forallb]. intros [Hl Hls]%andb_true_iff. rewrite (IH Hls), andb_true_r.
  destruct (is_comment l); [reflexivity|]. cbn [orb] in *.
  apply Nat.eqb_eq in Hl. rewrite Hl. reflexivity.
Qed.

(** A file whose data lines all have three fields parses, to as many
    rows as it has data lines. *)
Lemma cleaned_cloud_three_fields (fs : gmap string file) filepath f :
  fs !! filepath = Some f -> readable f = true ->
  three_fields (content f) = true ->
  exists rows,
    Converter.cleaned_cloud fs filepath = Ok rows /\
    length rows = length (data_lines (content f)) /\
    Forall (fun r => length r = 3%nat) rows.
Proof.
  intros Hf Hr H3. unfold Converter.cleaned_cloud.
  rewrite (open_rb_readable _ _ _ Hf Hr), bind_Ok.
  destruct (for_each_clean_line_ok (readlines (content f)) []
              (three_fields_at_least _ H3)) as [rows E].
  exists rows. split; [exact E|].
  destruct (for_each_clean_line_inv _ _ _ E) as (new & -> & _ & Hcnt & _ & Heq).
  split; [exact Hcnt | exact (Heq H3)].
Qed.

(** * The claims *)

(** C1. For a file whose data lines each split into exactly three fields,
    N of them, and a fraction f with 0 < f <= 1, [preview] returns
    [int(round(f * N))]; the count is the same for every seed drawn.
    (N is taken below 2^53, where a row count is a float exactly.) *)
Theorem preview_returns_rounded_count `{RandomState}
    (fs : gmap string file) (filepath : str) (f : file) (subsample : float) :
  fs !! filepath = Some f -> readable f = true ->
  three_fields (content f) = true ->
  (Z.of_nat (length (data_lines (content f))) < 2 ^ 53)%Z ->
  float_valid subsample = true ->
  float_lt float_zero subsample = true ->
  float_le subsample float_one = true ->
  exists n : Z,
    Pandas.sample_size subsample (length (data_lines (content f))) = Ok n /\
    (0 <= n <= Z.of_nat (length (data_lines (content f))))%Z /\
    forall seed, Converter.preview fs filepath subsample seed = Ok (Z.to_nat n).
Proof.
  intros Hf Hr H3 HN Hv Hlt Hle.
  destruct (cleaned_cloud_three_fields fs filepath f Hf Hr H3)
    as (rows & Hrows & Hlen & _).
  destruct (sample_size_bounds subsample _ Hv Hlt Hle HN) as (n & Hn & Hrange).
  exists n. split; [exact Hn|]. split; [exact Hrange|].
  intros seed. rewrite <- Hlen in Hn, Hrange.
  destruct (sample_ok rows subsample seed n Hn Hrange) as (df & Hdf & Hidx & _).
  unfold Converter.preview, Converter.point_data.
  rewrite Hrows, bind_Ok, Hdf, !bind_Ok. cbn [fst]. now rewrite Hidx.
Qed.

Lemma preview_returns_rounded_count_witness :
  disk ten_points !! scan_txt = Some (File true ten_points) /\
  three_fields ten_points = true /\
  length (data_lines ten_points) = 10%nat /\
  forall seed, Converter.preview (disk ten_points) scan_txt float_half seed = Ok 5%nat.
Proof.
  split; [reflexivity|]. split; [reflexivity|]. split; [reflexivity|].
  destruct (preview_returns_rounded_count (disk ten_points) scan_txt
              (File true ten_points) float_half)
    as (n & Hn & _ & Hp);
    try reflexivity.
  assert (E : n = 5%Z) by (vm_compute in Hn; congruence).
  intros seed. rewrite (Hp seed), E. reflexivity.
Defined.

Lemma lookup_map_Some {A B} (g : A -> B) (l : list A) i y :
  map g l !! i = Some y -> exists x, l !! i = Some x /\ y = g x.
Proof.
  revert i. induction l as [|x l IH]; intros [|i]; simpl; try discriminate.
  - intros [= <-]. now exists x.
  - apply IH.
Qed.

(** C2. For a file whose data lines each split into exactly three
    fields, N of them, and a fraction f with 0 < f <= 1, [transform]
    writes the workbook at the path of the input with its extension
    replaced by [.xlsx]; the grid written has [int(round(f * N))] rows (N
    rows when f is 1.0) of three cells each, and its rows are parsed rows
    at distinct positions, with nothing added before or beside them. *)
Theorem transform_writes_sampled_rows `{RandomState} `{ExcelWriter}
    (fs : gmap string file) (dir stem ext : str) (f : file)
    (subsample : float) (seed : Z) :
  let filepath := dir +:+ "/" +:+ stem +:+ "." +:+ ext in
  let N := length (data_lines (content f)) in
  PosixPath.endswith dir "/" = false ->
  contains "/" stem = false -> contains "/" ext = false ->
  contains "." ext = false -> PosixPath.all_char "." stem = false ->
  fs !! filepath = Some f -> readable f = true ->
  three_fields (content f) = true ->
  (Z.of_nat N < 2 ^ 53)%Z ->
  float_valid subsample = true ->
  float_lt float_zero subsample = true ->
  float_le subsample float_one = true ->
  exists (rows : list (list str)) (n : Z) (grid : list (list cell))
         (locs : list nat),
    Converter.cleaned_cloud fs filepath = Ok rows /\ length rows = N /\
    Pandas.sample_size subsample N = Ok n /\
    Converter.transform fs filepath subsample seed
    = (Ok tt, <[dir +:+ "/" +:+ stem +:+ ".xlsx" := File true (xlsx grid)]> fs) /\
    length grid = Z.to_nat n /\
    (subsample = float_one -> length grid = N) /\
    Forall (fun g => length g = 3%nat) grid /\
    NoDup locs /\
    Forall2 (fun i g => exists r, rows !! i = Some r /\ g = map Some r) locs grid.
Proof.
  intros filepath N Hdir Hs1 Hs2 Hdot Hnd Hf Hr H3 HN Hv Hlt Hle.
  destruct (cleaned_cloud_three_fields fs filepath f Hf Hr H3)
    as (rows & Hrows & Hlen & Hthree).
  destruct (sample_size_bounds subsample N Hv Hlt Hle HN) as (n & Hn & Hrange).
  fold N in Hlen. rewrite <- Hlen in Hrange.
  pose proof Hn as Hn'. rewrite <- Hlen in Hn'.
  destruct (sample_ok rows subsample seed n Hn' Hrange)
    as (df & Hdf & _ & Hvals & Hpos).
  rewrite (of_rows_values_3 rows Hthree) in Hpos.
  exists rows, n, (Pandas.values df), (choice seed (length rows) (Z.to_nat n)).
  assert (Hrel : Forall2 (fun i g => exists r, rows !! i = Some r /\ g = map Some r)
                   (choice seed (length rows) (Z.to_nat n)) (Pandas.values df)).
  { eapply Forall2_impl; [exact Hpos|]. intros i g Hg. simpl in Hg.
    now apply lookup_map_Some in Hg. }
  split; [exact Hrows|]. split; [exact Hlen|]. split; [exact Hn|].
  split.
  { unfold Converter.transform, Converter._create_xlsx, Converter.point_data.
    rewrite Hrows, Hdf, bind_Ok. cbn [snd]. unfold Pandas.to_excel.
    unfold filepath. now rewrite xlsx_path_replaces_extension. }
  split; [exact Hvals|]. split.
  { intros ->. rewrite (sample_size_one N HN) in Hn. injection Hn as <-.
    rewrite Hvals. lia. }
  split.
  { apply Forall_forall. intros g Hg.
    apply list_elem_of_lookup_1 in Hg as [j Hj].
    destruct (Forall2_lookup_r _ _ _ _ _ Hrel Hj) as (i & _ & r & Hr' & ->).
    rewrite length_map. apply list_elem_of_lookup_2 in Hr'.
    exact (proj1 (Forall_forall _ _) Hthree r Hr'). }
  split; [apply choice_NoDup; lia | exact Hrel].
Qed.

Lemma transform_writes_sampled_rows_witness :
  disk ten_points !! scan_txt = Some (File true ten_points) /\
  three_fields ten_points = true /\
  exists grid,
    Converter.transform (disk ten_points) scan_txt float_one 3
    = (Ok tt, <["/data/scan.xlsx" := File true (xlsx grid)]> (disk ten_points)) /\
    length grid = 10%nat /\ Forall (fun g => length g = 3%nat) grid.
Proof.
  split; [reflexivity|]. split; [reflexivity|].
  destruct (transform_writes_sampled_rows (disk ten_points)
              "/data" "scan" "txt" (File true ten_points) float_one 3)
    as (rows & n & grid & locs & _ & _ & _ & Ht & _ & Hone & Hthree & _);
    try reflexivity.
  exists grid. split; [exact Ht|]. split; [exact (Hone eq_refl) | exact Hthree].
Defined.

(** C3, as the specification has it, fails: a data line with a fourth
    field gives a row of four fields, the terminator still on the last. *)
Lemma cleaned_cloud_keeps_a_fourth_field :
  Converter.cleaned_cloud (disk ("1,2,3,4" +:+ CRLF)) scan_txt
  = Ok [["1"; "2"; "3"; "4" +:+ CRLF]] /\
  ~ Forall (fun r => length r = 3%nat) [["1"; "2"; "3"; "4" +:+ CRLF]].
Proof.
  split; [reflexivity|]. intros Hall. inversion Hall as [|? ? Hlen _]; subst.
  discriminate Hlen.
Qed.

(** C3, amended. The rows that [cleaned_cloud] (and [_clean_cloud] from
    an empty container) returns are at most as many as the file has
    lines, and every row has at least three fields; exactly three when
    every data line splits into exactly three. *)
Theorem cleaned_cloud_invariant
    (fs : gmap string file) (filepath : str) (rows : list (list str)) :
  Converter.cleaned_cloud fs filepath = Ok rows ->
  exists f,
    fs !! filepath = Some f /\
    (length rows <= length (readlines (content f)))%nat /\
    Forall (fun r => (3 <= length r)%nat) rows /\
    (three_fields (content f) = true ->
     Forall (fun r => length r = 3%nat) rows) /\
    Transformer._clean_cloud fs filepath [] = Ok rows.
Proof.
  intros Hrows. pose proof Hrows as Hloop. unfold Converter.cleaned_cloud in Hloop.
  apply bind_Ok_inv in Hloop as (c & Hopen & Hloop).
  destruct (open_rb_inv _ _ _ Hopen) as (f & Hf & _ & <-).
  destruct (for_each_clean_line_inv _ _ _ Hloop) as (new & -> & Hlen & _ & Hge & Heq).
  exists f. repeat split; auto.
Qed.

Lemma cleaned_cloud_invariant_witness :
  exists rows,
    Converter.cleaned_cloud (disk ten_points) scan_txt = Ok rows /\
    (length rows <= length (readlines ten_points))%nat /\
    Forall (fun r => length r = 3%nat) rows.
Proof.
  destruct (Converter.cleaned_cloud (disk ten_points) scan_txt) as [rows|e] eqn:E;
    [|discriminate E].
  destruct (cleaned_cloud_invariant (disk ten_points) scan_txt rows E)
    as (f & Hf & Hlen & _ & Hthree & _).
  assert (Ef : f = File true ten_points) by (injection Hf; auto).
  subst f. exists rows. split; [reflexivity|]. split; [exact Hlen|].
  apply Hthree. reflexivity.
Defined.

(** C4, as the specification has it, fails: the fraction 0 is outside
    (0, 1], yet [preview] returns a count and [transform] writes a file. *)
Lemma fraction_zero_is_accepted :
  Converter.preview (disk ten_points) scan_txt float_zero 4 = Ok 0%nat /\
  fst (Converter.transform (disk ten_points) scan_txt float_zero 4) = Ok tt /\
  snd (Converter.transform (disk ten_points) scan_txt float_zero 4)
    !! "/data/scan.xlsx" = Some (File true "").
Proof. vm_compute. repeat split; reflexivity. Qed.

(** C4, amended. [preview] and [transform] do not compare the fraction
    with 0 and 1; they raise, and write nothing, when
    [int(round(f * N))] is negative, exceeds the number N of rows, or
    cannot be computed.  For the fraction 0 [preview] returns 0 and
    [transform] writes a workbook with no rows. *)
Theorem fraction_rejected_by_count_only `{RandomState} `{ExcelWriter}
    (fs : gmap string file) (filepath : str) (rows : list (list str))
    (subsample : float) (seed : Z) :
  Converter.cleaned_cloud fs filepath = Ok rows ->
  (Z.of_nat (length rows) < 2 ^ 53)%Z ->
  (forall e,
     match Pandas.sample_size subsample (length rows) with
     | Ok n => (n < 0 \/ Z.of_nat (length rows) < n)%Z /\ e = ValueError
     | Raise e' => e = e'
     end ->
     Converter.preview fs filepath subsample seed = Raise e /\
     Converter.transform fs filepath subsample seed = (Raise e, fs) /\
     Transformer.transform fs filepath [] subsample seed = (Raise e, fs)) /\
  Converter.preview fs filepath float_zero seed = Ok 0%nat /\
  Converter.transform fs filepath float_zero seed
  = (Ok tt, <[Converter._xlsx_path filepath := File true (xlsx [])]> fs).
Proof.
  intros Hrows HN.
  assert (Hclean : Transformer._clean_cloud fs filepath [] = Ok rows) by exact Hrows.
  split; [|split].
  - intros e He.
    assert (Hs : Pandas.sample (Pandas.of_rows rows) subsample seed = Raise e).
    { destruct (Pandas.sample_size subsample (length rows)) as [n|e'] eqn:Hn.
      - destruct He as [Hrange ->]. now apply (sample_out_of_range rows subsample seed n).
      - subst e'. now apply sample_no_size. }
    unfold Converter.preview, Converter.transform, Converter._create_xlsx,
      Converter.point_data, Transformer.transform, Transformer._create_xlsx.
    rewrite Hrows, Hclean, bind_Ok. cbn beta iota. rewrite Hs.
    repeat split; reflexivity.
  - destruct (sample_ok rows float_zero seed 0 (sample_size_zero _ HN) ltac:(lia))
      as (df & Hdf & Hidx & _).
    unfold Converter.preview, Converter.point_data.
    rewrite Hrows, bind_Ok, Hdf, !bind_Ok. cbn [fst]. now rewrite Hidx.
  - destruct (sample_ok rows float_zero seed 0 (sample_size_zero _ HN) ltac:(lia))
      as (df & Hdf & _ & Hvals & _).
    unfold Converter.transform, Converter._create_xlsx, Converter.point_data.
    rewrite Hrows, Hdf, bind_Ok. cbn [snd]. unfold Pandas.to_excel.
    destruct (Pandas.values df); [reflexivity | discriminate Hvals].
Qed.

Lemma fraction_rejected_by_count_only_witness :
  Pandas.sample_size float_eleven_tenths 10 = Ok 11%Z /\
  Converter.preview (disk ten_points) scan_txt float_eleven_tenths 4
  = Raise ValueError /\
  Converter.transform (disk ten_points) scan_txt float_eleven_tenths 4
  = (Raise ValueError, disk ten_points).
Proof.
  split; [reflexivity|].
  destruct (Converter.cleaned_cloud (disk ten_points) scan_txt) as [rows|e] eqn:E;
    [|discriminate E].
  assert (Hlen : length rows = 10%nat) by (injection E as <-; reflexivity).
  destruct (fraction_rejected_by_count_only (disk ten_points) scan_txt rows
              float_eleven_tenths 4 E) as [Hfail _].
  { rewrite Hlen. reflexivity. }
  destruct (Hfail ValueError) as (Hp & Ht & _).
  { rewrite Hlen. change (Pandas.sample_size float_eleven_tenths 10) with (@Ok Z 11%Z).
    split; [right; reflexivity | reflexivity]. }
  split; [exact Hp | exact Ht].
Defined.

(** [float] of a string raises nothing but [ValueError]. *)
Lemma float_of_str_raise s e : float_of_str s = Raise e -> e = ValueError.
Proof.
  unfold float_of_str, decimal.
  repeat match goal with
         | |- context [let '(_, _) := ?x in _] => destruct x
         | |- context [match ?x with _ => _ end] => destruct x
         | |- context [if ?x then _ else _] => destruct x
         end;
    intros [= <-]; reflexivity.
Qed.

(** C5. The validator on the six inputs of the specification, and in
    general: when the string parses to a float v the result is v if
    0 < v <= 1 and [None] otherwise; when it does not parse the result is
    [None].  [validate_subsample] is the same function. *)
Theorem validate_sub_accepts_unit_interval :
  Converter.validate_sub "1.0" = Ok (Some float_one) /\
  Converter.validate_sub "0.5" = Ok (Some float_half) /\
  Converter.validate_sub "0" = Ok None /\
  Converter.validate_sub "1.1" = Ok None /\
  Converter.validate_sub "abc" = Ok None /\
  Converter.validate_sub "" = Ok None /\
  (forall s,
     Converter.validate_sub s =
     match float_of_str s with
     | Ok v => Ok (if float_lt float_zero v && float_le v float_one
                   then Some v else None)
     | Raise _ => Ok None
     end) /\
  (forall s, Transformer.validate_subsample s = Converter.validate_sub s).
Proof.
  repeat (split; [reflexivity|]). split; [|reflexivity].
  intros s. unfold Converter.validate_sub.
  destruct (float_of_str s) as [v|e] eqn:E.
  - now destruct (float_lt float_zero v && float_le v float_one).
  - now rewrite (float_of_str_raise s e E).
Qed.

(** C6. A line whose first character is [#] adds no row, whatever
    follows the [#] and wherever the line stands; a file of such lines
    alone parses to no rows, and [preview] of it is 0 for every fraction
    in (0, 1]. *)
Theorem comment_lines_add_no_row `{RandomState}
    (fs : gmap string file) (filepath : str) (f : file) :
  fs !! filepath = Some f -> readable f = true ->
  only_comments (content f) = true ->
  (forall container rest, clean_line container (String "#" rest) = Ok container) /\
  (forall container before rest after,
     for_each clean_line container (before ++ String "#" rest :: after)
     = for_each clean_line container (before ++ after)) /\
  Converter.cleaned_cloud fs filepath = Ok [] /\
  (forall subsample seed,
     float_lt float_zero subsample = true ->
     float_le subsample float_one = true ->
     Converter.preview fs filepath subsample seed = Ok 0%nat).
Proof.
  intros Hf Hr Hall.
  assert (Hrows : Converter.cleaned_cloud fs filepath = Ok []).
  { unfold Converter.cleaned_cloud.
    rewrite (open_rb_readable _ _ _ Hf Hr), bind_Ok.
    apply for_each_clean_line_comments.
    apply Forall_forall. intros l Hl. unfold only_comments in Hall.
    rewrite forallb_forall in Hall. apply Hall. now apply list_elem_of_In. }
  split; [exact clean_line_comment|]. split; [|split; [exact Hrows|]].
  - intros container before rest after. rewrite !for_each_app.
    destruct (for_each clean_line container before) as [acc|e]; [|reflexivity].
    rewrite !bind_Ok. cbn [for_each]. now rewrite clean_line_comment.
  - intros subsample seed Hlt Hle.
    destruct (sample_ok [] subsample seed 0 (sample_size_no_rows _ Hlt Hle)
                ltac:(simpl; lia)) as (df & Hdf & Hidx & _).
    unfold Converter.preview, Converter.point_data.
    rewrite Hrows, bind_Ok, Hdf, !bind_Ok. cbn [fst]. now rewrite Hidx.
Qed.

Lemma comment_lines_add_no_row_witness :
  only_comments ("# a,b,c" +:+ CRLF +:+ "#") = true /\
  Converter.cleaned_cloud (disk ("# a,b,c" +:+ CRLF +:+ "#")) scan_txt = Ok [] /\
  Converter.preview (disk ("# a,b,c" +:+ CRLF +:+ "#")) scan_txt float_half 9
  = Ok 0%nat.
Proof.
  split; [reflexivity|].
  destruct (comment_lines_add_no_row (disk ("# a,b,c" +:+ CRLF +:+ "#")) scan_txt
              (File true ("# a,b,c" +:+ CRLF +:+ "#")))
    as (_ & _ & Hrows & Hp); try reflexivity.
  split; [exact Hrows|]. apply Hp; reflexivity.
Defined.

(** C7. On a data line [x,y,z] ended by carriage return and line feed,
    the terminator is taken off the third field and the first two fields
    are kept as the split gives them; the line ["1.0,2.0,3.0\r\n"] gives
    the row [["1.0"; "2.0"; "3.0"]]. *)
Theorem terminator_stripped_from_third_field
    (container : list (list str)) (x y z : str) :
  is_comment x = false ->
  contains "," x = false -> contains "," y = false -> contains "," z = false ->
  contains LF z = false ->
  clean_line container (line_of x y z) = Ok (container ++ [[x; y; z]]) /\
  Converter.cleaned_cloud (disk ("1.0,2.0,3.0" +:+ CRLF)) scan_txt
  = Ok [["1.0"; "2.0"; "3.0"]].
Proof.
  intros Hc Hx Hy Hz Hlf. split; [|reflexivity].
  assert (Hsplit : str_split "," (line_of x y z) = [x; y; z +:+ CRLF]).
  { unfold line_of.
    change (x +:+ "," +:+ y +:+ "," +:+ z +:+ CRLF)
      with (x +:+ String "," (y +:+ String "," (z +:+ CRLF))).
    rewrite !str_split_field by assumption.
    rewrite str_split_no_sep; [reflexivity|].
    rewrite contains_app, Hz. reflexivity. }
  rewrite (clean_line_data container _ x y (z +:+ CRLF) []); try assumption.
  - now rewrite strip_trailing_crlf.
  - unfold line_of. destruct x; discriminate.
  - unfold line_of. destruct x as [|c x]; [reflexivity | exact Hc].
Qed.

Lemma terminator_stripped_from_third_field_witness :
  contains LF "-3.0e1" = false /\
  clean_line [] (line_of " 1.0 " "2.0" "-3.0e1") = Ok [[" 1.0 "; "2.0"; "-3.0e1"]].
Proof.
  split; [reflexivity|].
  apply (terminator_stripped_from_third_field [] " 1.0 " "2.0" "-3.0e1");
    reflexivity.
Defined.

(** C8. When the path names no file that can be read, [transform]
    raises [IOError] and leaves the file system as it was; nothing
    appears at the path of the workbook. *)
Theorem transform_missing_input `{RandomState} `{ExcelWriter}
    (fs : gmap string file) (filepath : str) (container : list (list str))
    (subsample : float) (seed : Z) :
  (forall f, fs !! filepath = Some f -> readable f = false) ->
  Converter.transform fs filepath subsample seed = (Raise IOError, fs) /\
  snd (Converter.transform fs filepath subsample seed)
    !! Converter._xlsx_path filepath = fs !! Converter._xlsx_path filepath /\
  Transformer.transform fs filepath container subsample seed = (Raise IOError, fs).
Proof.
  intros Hno. pose proof (open_rb_missing fs filepath Hno) as Hopen.
  assert (Hc : Converter.transform fs filepath subsample seed = (Raise IOError, fs)).
  { unfold Converter.transform, Converter.cleaned_cloud.
    now rewrite Hopen, bind_Raise. }
  split; [exact Hc|]. split; [now rewrite Hc|].
  unfold Transformer.transform, Transformer._clean_cloud.
  now rewrite Hopen, bind_Raise.
Qed.

Lemma transform_missing_input_witness :
  disk ten_points !! "/data/other.txt" = None /\
  Converter.transform (disk ten_points) "/data/other.txt" float_one 0
  = (Raise IOError, disk ten_points).
Proof.
  split; [reflexivity|].
  apply (transform_missing_input (disk ten_points) "/data/other.txt" [] float_one 0).
  intros f Hf. discriminate Hf.
Defined.

(** C9. A file with a line that is not a comment line and splits into
    fewer than three fields does not parse: reading the third field
    raises [IndexError]. *)
Theorem short_line_raises_index_error
    (fs : gmap string file) (filepath : str) (f : file) (line : str) :
  fs !! filepath = Some f -> readable f = true ->
  line ∈ readlines (content f) ->
  is_comment line = false ->
  (length (str_split "," line) < 3)%nat ->
  Converter.cleaned_cloud fs filepath = Raise IndexError /\
  forall container,
    Transformer._clean_cloud fs filepath container = Raise IndexError.
Proof.
  intros Hf Hr Hin Hc Hlen.
  unfold Converter.cleaned_cloud, Transformer._clean_cloud.
  rewrite (open_rb_readable _ _ _ Hf Hr), !bind_Ok.
  split; [|intros container];
    now apply (for_each_clean_line_short _ line).
Qed.

Lemma short_line_raises_index_error_witness :
  CRLF ∈ readlines (line_of "1" "2" "3" +:+ CRLF +:+ line_of "4" "5" "6") /\
  str_split "," CRLF = [CRLF] /\
  Converter.cleaned_cloud
    (disk (line_of "1" "2" "3" +:+ CRLF +:+ line_of "4" "5" "6")) scan_txt
  = Raise IndexError.
Proof.
  assert (Hin : CRLF ∈ readlines (line_of "1" "2" "3" +:+ CRLF
                                  +:+ line_of "4" "5" "6")).
  { apply list_elem_of_In. right. left. reflexivity. }
  split; [exact Hin|]. split; [reflexivity|].
  apply (short_line_raises_index_error
           (disk (line_of "1" "2" "3" +:+ CRLF +:+ line_of "4" "5" "6")) scan_txt
           (File true (line_of "1" "2" "3" +:+ CRLF +:+ line_of "4" "5" "6")) CRLF);
    try reflexivity; try exact Hin; simpl; lia.
Defined.

Lemma strip_concat pieces :
  Forall (fun p => has_crlf p = false) pieces ->
  strip (String.concat CRLF pieces) = String.concat "" pieces.
Proof.
  induction 1 as [|p pieces Hp Hps IH]; [reflexivity|].
  destruct pieces as [|q pieces]; [now apply strip_no_crlf|].
  change (String.concat CRLF (p :: q :: pieces))
    with (p +:+ CRLF +:+ String.concat CRLF (q :: pieces)).
  change (String.concat "" (p :: q :: pieces))
    with (p +:+ "" +:+ String.concat "" (q :: pieces)).
  rewrite strip_app_crlf, IH, (strip_no_crlf p Hp). reflexivity.
Qed.

(** C10. The third field of a data line loses every occurrence of
    carriage return followed by line feed, wherever it stands: pieces
    joined by that pair come out joined by nothing.  A line feed with no
    carriage return before it stays: the line ["1.0,2.0,3.0\n"] gives the
    third field ["3.0\n"]. *)
Theorem every_crlf_removed_bare_lf_kept
    (container : list (list str)) (x y z : str) :
  is_comment x = false ->
  contains "," x = false -> contains "," y = false -> contains "," z = false ->
  clean_line container (x +:+ "," +:+ y +:+ "," +:+ z)
  = Ok (container ++ [[x; y; str_replace CRLF "" z]]) /\
  (forall pieces,
     Forall (fun p => has_crlf p = false) pieces ->
     str_replace CRLF "" (String.concat CRLF pieces) = String.concat "" pieces) /\
  (contains CR z = false ->
   str_replace CRLF "" (z +:+ String LF "") = z +:+ String LF "") /\
  Converter.cleaned_cloud (disk ("1.0,2.0,3.0" +:+ String LF "")) scan_txt
  = Ok [["1.0"; "2.0"; "3.0" +:+ String LF ""]].
Proof.
  intros Hc Hx Hy Hz.
  split; [|split; [exact strip_concat | split; [|reflexivity]]].
  - assert (Hsplit : str_split "," (x +:+ "," +:+ y +:+ "," +:+ z) = [x; y; z]).
    { change (x +:+ "," +:+ y +:+ "," +:+ z)
        with (x +:+ String "," (y +:+ String "," z)).
      rewrite !str_split_field by assumption.
      now rewrite str_split_no_sep. }
    rewrite (clean_line_data container _ x y z []); try assumption.
    + reflexivity.
    + destruct x; discriminate.
    + destruct x as [|c x]; [reflexivity | exact Hc].
  - intros Hcr. apply strip_no_crlf. now apply has_crlf_app_lf.
Qed.

Lemma every_crlf_removed_bare_lf_kept_witness :
  clean_line [] ("1" +:+ "," +:+ "2" +:+ ","
                 +:+ ("3" +:+ CRLF +:+ "4" +:+ CRLF +:+ String LF ""))
  = Ok [["1"; "2"; "34" +:+ String LF ""]].
Proof.
  exact (proj1 (every_crlf_removed_bare_lf_kept [] "1" "2"
                  ("3" +:+ CRLF +:+ "4" +:+ CRLF +:+ String LF "")
                  eq_refl eq_refl eq_refl eq_refl)).
Defined.


(** * Further properties of the code *)

(** ** Parsing *)

Lemma clean_line_row acc line rows :
  clean_line acc line = Ok rows ->
  rows = acc ++ (if is_comment line then [] else [row_of line]).
Proof.
  intros E.
  destruct (clean_line_inv _ _ _ E) as [[Hc ->]|(Hc & x & y & z & more & Hs & ->)];
    rewrite Hc.
  - now rewrite app_nil_r.
  - unfold row_of. now rewrite Hs.
Qed.

Lemma for_each_clean_line_rows lines : forall acc rows,
  for_each clean_line acc lines = Ok rows ->
  rows = acc ++ map row_of (List.filter (fun l => negb (is_comment l)) lines).
Proof.
  induction lines as [|l lines IH]; intros acc rows.
  - intros [= <-]. now rewrite app_nil_r.
  - cbn [for_each]. destruct (clean_line acc l) as [acc'|e] eqn:E; [|discriminate].
    cbn [bind]. intros Hrest. rewrite (IH _ _ Hrest), (clean_line_row _ _ _ E).
    cbn [List.filter]. destruct (is_comment l); cbn [negb map].
    + now rewrite app_nil_r.
    + now rewrite <- app_assoc.
Qed.

Lemma for_each_clean_line_fails lines : forall acc,
  forallb (fun l => is_comment l || (3 <=? length (str_split "," l))%nat) lines
  = false ->
  for_each clean_line acc lines = Raise IndexError.
Proof.
  intros acc Hall.
  assert (Hex : exists l, l ∈ lines /\ is_comment l = false /\
                          (length (str_split "," l) < 3)%nat).
  { induction lines as [|l lines IH]; [discriminate|].
    cbn [forallb] in Hall. apply andb_false_iff in Hall as [Hl|Hls].
    - apply orb_false_elim in Hl as [Hc Hlen]. apply Nat.leb_gt in Hlen.
      exists l. split; [left | now split].
    - destruct (IH Hls) as (l' & Hin & Hc & Hlen).
      exists l'. split; [now right | now split]. }
  destruct Hex as (l & Hin & Hc & Hlen).
  now apply (for_each_clean_line_short lines l).
Qed.

(** X1. The rows that [cleaned_cloud] returns are the rows of the data
    lines of the file, one for each, in the order of the file. *)
Theorem cleaned_cloud_rows_in_file_order
    (fs : gmap string file) (filepath : str) (rows : list (list str)) :
  Converter.cleaned_cloud fs filepath = Ok rows ->
  exists f,
    fs !! filepath = Some f /\ readable f = true /\
    rows = map row_of (data_lines (content f)).
Proof.
  intros Hrows. unfold Converter.cleaned_cloud in Hrows.
  apply bind_Ok_inv in Hrows as (c & Hopen & Hloop).
  destruct (open_rb_inv _ _ _ Hopen) as (f & Hf & Hr & <-).
  exists f. split; [exact Hf|]. split; [exact Hr|].
  exact (for_each_clean_line_rows _ _ _ Hloop).
Qed.

Lemma cleaned_cloud_rows_in_file_order_witness :
  Converter.cleaned_cloud
    (disk ("#a" +:+ CRLF +:+ line_of "1" "2" "3" +:+ "# b" +:+ CRLF
           +:+ line_of "4" "5" "6")) scan_txt
  = Ok [["1"; "2"; "3"]; ["4"; "5"; "6"]] /\
  exists f,
    disk ("#a" +:+ CRLF +:+ line_of "1" "2" "3" +:+ "# b" +:+ CRLF
          +:+ line_of "4" "5" "6") !! scan_txt = Some f /\
    [["1"; "2"; "3"]; ["4"; "5"; "6"]] = map row_of (data_lines (content f)).
Proof.
  split; [reflexivity|].
  destruct (cleaned_cloud_rows_in_file_order
              (disk ("#a" +:+ CRLF +:+ line_of "1" "2" "3" +:+ "# b" +:+ CRLF
                     +:+ line_of "4" "5" "6")) scan_txt
              [["1"; "2"; "3"]; ["4"; "5"; "6"]] eq_refl) as (f & Hf & _ & Hrows).
  exists f. split; [exact Hf | exact Hrows].
Defined.

(** X2. A file that can be read parses exactly when each of its data
    lines has three fields or more; when one has fewer, [cleaned_cloud]
    raises [IndexError], and it raises nothing else. *)
Theorem cleaned_cloud_parses_iff_well_formed
    (fs : gmap string file) (filepath : str) (f : file) :
  fs !! filepath = Some f -> readable f = true ->
  Converter.cleaned_cloud fs filepath =
  if well_formed (content f)
  then Ok (map row_of (data_lines (content f)))
  else Raise IndexError.
Proof.
  intros Hf Hr. unfold Converter.cleaned_cloud.
  rewrite (open_rb_readable _ _ _ Hf Hr), bind_Ok.
  destruct (well_formed (content f)) eqn:Hwf.
  - destruct (for_each_clean_line_ok _ [] Hwf) as [rows E].
    rewrite E. f_equal. exact (for_each_clean_line_rows _ _ _ E).
  - now apply for_each_clean_line_fails.
Qed.

Lemma cleaned_cloud_parses_iff_well_formed_witness :
  well_formed (line_of "1" "2" "3" +:+ "4,5" +:+ CRLF) = false /\
  Converter.cleaned_cloud (disk (line_of "1" "2" "3" +:+ "4,5" +:+ CRLF)) scan_txt
  = Raise IndexError.
Proof.
  split; [reflexivity|].
  exact (cleaned_cloud_parses_iff_well_formed
           (disk (line_of "1" "2" "3" +:+ "4,5" +:+ CRLF)) scan_txt
           (File true (line_of "1" "2" "3" +:+ "4,5" +:+ CRLF)) eq_refl eq_refl).
Defined.

Lemma clean_line_container acc line :
  clean_line acc line = rows ← clean_line [] line; Ok (acc ++ rows).
Proof.
  destruct line as [|c rest]; [reflexivity|].
  rewrite !clean_line_unfold. destruct (Ascii.eqb c "#").
  - rewrite bind_Ok. now rewrite app_nil_r.
  - cbv zeta.
    destruct (str_split "," (String c rest)) as [|x [|y [|z more]]];
      reflexivity.
Qed.

Lemma for_each_clean_line_container lines : forall acc,
  for_each clean_line acc lines
  = rows ← for_each clean_line [] lines; Ok (acc ++ rows).
Proof.
  induction lines as [|l lines IH]; intros acc.
  - cbn [for_each]. rewrite bind_Ok. now rewrite app_nil_r.
  - cbn [for_each]. rewrite (clean_line_container acc l).
    destruct (clean_line [] l) as [r|e]; [|reflexivity].
    rewrite !bind_Ok. cbn [bind]. rewrite (IH (acc ++ r)), (IH r).
    destruct (for_each clean_line [] lines) as [rows|e]; [|reflexivity].
    rewrite !bind_Ok. now rewrite app_assoc.
Qed.

(** X3. [_clean_cloud] appends to the list it is handed: its result is
    that list followed by the rows that parsing into an empty list gives,
    and it raises just when that parsing raises. *)
Theorem clean_cloud_appends_to_container
    (fs : gmap string file) (filepath : str) (container : list (list str)) :
  Transformer._clean_cloud fs filepath container
  = rows ← Converter.cleaned_cloud fs filepath; Ok (container ++ rows).
Proof.
  unfold Transformer._clean_cloud, Converter.cleaned_cloud.
  destruct (open_rb fs filepath) as [c|e]; [|reflexivity].
  rewrite !bind_Ok. apply for_each_clean_line_container.
Qed.

(** ** Sampling and writing *)

(** What [sample] does, by the size that is asked for. *)
Lemma sample_cases `{RandomState} data frac seed :
  match Pandas.sample_size frac (length data) with
  | Raise e => Pandas.sample (Pandas.of_rows data) frac seed = Raise e
  | Ok n =>
      if ((0 <=? n) && (n <=? Z.of_nat (length data)))%Z then
        exists df,
          Pandas.sample (Pandas.of_rows data) frac seed = Ok df /\
          length (Pandas.index df) = Z.to_nat n /\
          length (Pandas.values df) = Z.to_nat n /\
          Forall2 (fun i g => Pandas.values (Pandas.of_rows data) !! i = Some g)
                  (choice seed (length data) (Z.to_nat n)) (Pandas.values df)
      else Pandas.sample (Pandas.of_rows data) frac seed = Raise ValueError
  end.
Proof.
  destruct (Pandas.sample_size frac (length data)) as [n|e] eqn:Hn.
  - destruct ((0 <=? n) && (n <=? Z.of_nat (length data)))%Z eqn:Hr.
    + apply andb_true_iff in Hr as [Hlo Hhi].
      apply Z.leb_le in Hlo. apply Z.leb_le in Hhi.
      now apply sample_ok.
    + apply (sample_out_of_range data frac seed n Hn).
      apply andb_false_iff in Hr as [Hlo|Hhi];
        [apply Z.leb_gt in Hlo | apply Z.leb_gt in Hhi]; lia.
  - now apply sample_no_size.
Qed.

(** X4. The transformer's [transform] is the converter's writing step
    run on the list handed in followed by the parsed rows; with an empty
    list the two programs do the same. *)
Theorem transformer_transform_as_converter `{RandomState} `{ExcelWriter}
    (fs : gmap string file) (filepath : str) (container : list (list str))
    (subsample : float) (seed : Z) :
  Transformer.transform fs filepath container subsample seed
  = match Converter.cleaned_cloud fs filepath with
    | Raise e => (Raise e, fs)
    | Ok rows =>
        Converter._create_xlsx fs filepath (container ++ rows) subsample seed
    end /\
  Transformer.transform fs filepath [] subsample seed
  = Converter.transform fs filepath subsample seed.
Proof.
  assert (Hc : forall data,
             Transformer._create_xlsx fs filepath data subsample seed
             = Converter._create_xlsx fs filepath data subsample seed).
  { intros data. unfold Transformer._create_xlsx, Converter._create_xlsx,
      Converter.point_data.
    destruct (Pandas.sample (Pandas.of_rows data) subsample seed); reflexivity. }
  split.
  - unfold Transformer.transform, Transformer._clean_cloud,
      Converter.cleaned_cloud.
    destruct (open_rb fs filepath) as [c|e]; [|reflexivity].
    rewrite !bind_Ok, for_each_clean_line_container.
    destruct (for_each clean_line [] (readlines c)) as [rows|e]; [|reflexivity].
    rewrite bind_Ok. apply Hc.
  - unfold Transformer.transform, Converter.transform.
    change (Transformer._clean_cloud fs filepath [])
      with (Converter.cleaned_cloud fs filepath).
    destruct (Converter.cleaned_cloud fs filepath) as [rows|e]; [|reflexivity].
    apply Hc.
Qed.

(** [transform] either raises and leaves the file system, or writes one
    workbook. *)
Lemma transform_cases `{RandomState} `{ExcelWriter}
    (fs : gmap string file) (filepath : str) (subsample : float) (seed : Z) :
  (exists e, Converter.transform fs filepath subsample seed = (Raise e, fs)) \/
  (exists grid,
     Converter.transform fs filepath subsample seed
     = (Ok tt, <[Converter._xlsx_path filepath := File true (xlsx grid)]> fs)).
Proof.
  unfold Converter.transform, Converter._create_xlsx, Converter.point_data.
  destruct (Converter.cleaned_cloud fs filepath) as [rows|e]; [|left; now exists e].
  destruct (Pandas.sample (Pandas.of_rows rows) subsample seed) as [df|e].
  - right. now exists (Pandas.values df).
  - left. now exists e.
Qed.

(** X5. [preview] and [transform] agree, whatever seeds the two calls
    draw: when [preview] returns a count, [transform] writes a grid of
    that many rows; when [preview] raises, [transform] raises the same
    and writes nothing. *)
Theorem preview_counts_what_transform_writes `{RandomState} `{ExcelWriter}
    (fs : gmap string file) (filepath : str) (subsample : float)
    (seed seed' : Z) :
  match Converter.preview fs filepath subsample seed with
  | Ok count =>
      exists grid,
        Converter.transform fs filepath subsample seed'
        = (Ok tt, <[Converter._xlsx_path filepath := File true (xlsx grid)]> fs) /\
        length grid = count
  | Raise e => Converter.transform fs filepath subsample seed' = (Raise e, fs)
  end.
Proof.
  unfold Converter.preview, Converter.transform, Converter._create_xlsx,
    Converter.point_data.
  destruct (Converter.cleaned_cloud fs filepath) as [rows|e]; [|reflexivity].
  rewrite bind_Ok.
  pose proof (sample_cases rows subsample seed) as Hs.
  pose proof (sample_cases rows subsample seed') as Hs'.
  destruct (Pandas.sample_size subsample (length rows)) as [n|e].
  - destruct ((0 <=? n) && (n <=? Z.of_nat (length rows)))%Z.
    + destruct Hs as (df & -> & Hidx & _). destruct Hs' as (df' & -> & _ & Hv & _).
      rewrite !bind_Ok. cbn [fst snd]. exists (Pandas.values df').
      split; [reflexivity | congruence].
    + rewrite Hs, Hs'. reflexivity.
  - rewrite Hs, Hs'. reflexivity.
Qed.

(** X6. [transform] changes the file system at the path of the workbook
    and nowhere else; when it raises it changes nothing at all. *)
Theorem transform_touches_only_the_workbook `{RandomState} `{ExcelWriter}
    (fs : gmap string file) (filepath : str) (subsample : float) (seed : Z)
    (other : str) :
  other <> Converter._xlsx_path filepath ->
  snd (Converter.transform fs filepath subsample seed) !! other = fs !! other /\
  (forall e, fst (Converter.transform fs filepath subsample seed) = Raise e ->
             snd (Converter.transform fs filepath subsample seed) = fs).
Proof.
  intros Hne.
  destruct (transform_cases fs filepath subsample seed) as [[e ->]|[grid ->]];
    cbn [fst snd].
  - split; reflexivity.
  - split; [now apply lookup_insert_ne | intros e He; discriminate He].
Qed.

Lemma transform_touches_only_the_workbook_witness :
  snd (Converter.transform (disk ten_points) scan_txt float_half 1)
    !! scan_txt = Some (File true ten_points).
Proof.
  refine (proj1 (transform_touches_only_the_workbook
                   (disk ten_points) scan_txt float_half 1 scan_txt _)).
  intros Heq. vm_compute in Heq. discriminate Heq.
Defined.

(** X7. A count that [preview] returns never exceeds the number of data
    lines of the file, whatever the fraction. *)
Theorem preview_at_most_the_data_lines `{RandomState}
    (fs : gmap string file) (filepath : str) (subsample : float) (seed : Z)
    (count : nat) :
  Converter.preview fs filepath subsample seed = Ok count ->
  exists f,
    fs !! filepath = Some f /\
    (count <= length (data_lines (content f)))%nat.
Proof.
  unfold Converter.preview, Converter.point_data.
  destruct (Converter.cleaned_cloud fs filepath) as [rows|e] eqn:Hrows;
    [|discriminate].
  pose proof Hrows as Hloop. unfold Converter.cleaned_cloud in Hloop.
  apply bind_Ok_inv in Hloop as (c & Hopen & Hloop).
  destruct (open_rb_inv _ _ _ Hopen) as (f & Hf & _ & <-).
  pose proof (for_each_clean_line_rows _ _ _ Hloop) as Hr. cbn [app] in Hr.
  rewrite bind_Ok. pose proof (sample_cases rows subsample seed) as Hs.
  destruct (Pandas.sample_size subsample (length rows)) as [n|e].
  - destruct ((0 <=? n) && (n <=? Z.of_nat (length rows)))%Z eqn:Hrange.
    + destruct Hs as (df & -> & Hidx & _). rewrite !bind_Ok. cbn [fst].
      intros [= <-]. exists f. split; [exact Hf|].
      apply andb_true_iff in Hrange as [Hlo Hhi].
      apply Z.leb_le in Hlo. apply Z.leb_le in Hhi.
      rewrite Hidx. rewrite Hr, length_map in Hhi. unfold data_lines. lia.
    + rewrite Hs. discriminate.
  - rewrite Hs. discriminate.
Qed.

Lemma preview_at_most_the_data_lines_witness :
  Converter.preview (disk ten_points) scan_txt float_half 6 = Ok 5%nat /\
  (5 <= length (data_lines ten_points))%nat.
Proof.
  assert (Hp : Converter.preview (disk ten_points) scan_txt float_half 6
               = Ok 5%nat) by reflexivity.
  split; [exact Hp|].
  destruct (preview_at_most_the_data_lines (disk ten_points) scan_txt
              float_half 6 5 Hp) as (f & Hf & Hle).
  assert (Ef : f = File true ten_points) by (injection Hf; auto).
  now subst f.
Defined.

Lemma Forall2_lookup_map {A} (d : A) (V : list A) locs grid :
  Forall2 (fun i g => V !! i = Some g) locs grid ->
  grid = map (fun i => default d (V !! i)) locs.
Proof.
  induction 1 as [|i g locs grid Hg _ IH]; [reflexivity|].
  cbn [map]. rewrite Hg. cbn [default]. now f_equal.
Qed.

Lemma map_lookup_seq {A} (d : A) (V : list A) :
  map (fun i => default d (V !! i)) (seq 0 (length V)) = V.
Proof.
  apply list_eq. intros i.
  change (map (fun i => default d (V !! i)) (seq 0 (length V)))
    with ((fun i => default d (V !! i)) <$> seq 0 (length V)).
  rewrite list_lookup_fmap.
  destruct (decide (i < length V)%nat) as [Hi|Hi].
  - rewrite lookup_seq_lt by assumption. cbn [fmap option_fmap option_map].
    destruct (lookup_lt_is_Some_2 V i Hi) as [x Hx].
    change (0 + i)%nat with i. rewrite Hx. reflexivity.
  - rewrite (lookup_ge_None_2 V) by lia.
    rewrite (lookup_ge_None_2 (seq 0 (length V))) by (rewrite length_seq; lia).
    reflexivity.
Qed.

(** All the positions, each once: a draw of as many positions as there
    are. *)
Lemma choice_all `{RandomState} seed a : choice seed a a ≡ₚ seq 0 a.
Proof.
  apply submseteq_length_Permutation.
  - apply NoDup_submseteq; [now apply choice_NoDup|].
    intros i Hi. apply elem_of_seq. split; [lia|].
    simpl. now apply (choice_lt seed a a).
  - now rewrite length_seq, choice_length.
Qed.

(** X8. With the fraction 1.0 [transform] writes every parsed row, each
    exactly once; the order is up to the generator. *)
Theorem transform_all_rows_once `{RandomState} `{ExcelWriter}
    (fs : gmap string file) (filepath : str) (rows : list (list str))
    (seed : Z) :
  Converter.cleaned_cloud fs filepath = Ok rows ->
  (Z.of_nat (length rows) < 2 ^ 53)%Z ->
  exists grid,
    Converter.transform fs filepath float_one seed
    = (Ok tt, <[Converter._xlsx_path filepath := File true (xlsx grid)]> fs) /\
    grid ≡ₚ Pandas.values (Pandas.of_rows rows) /\
    (Forall (fun r => length r = 3%nat) rows -> grid ≡ₚ map (map Some) rows).
Proof.
  intros Hrows HN.
  destruct (sample_ok rows float_one seed _ (sample_size_one _ HN) ltac:(lia))
    as (df & Hdf & _ & _ & Hpos).
  rewrite Nat2Z.id in Hpos.
  exists (Pandas.values df).
  assert (Hperm : Pandas.values df ≡ₚ Pandas.values (Pandas.of_rows rows)).
  { rewrite (Forall2_lookup_map [] _ _ _ Hpos).
    transitivity (map (fun i => default [] (Pandas.values (Pandas.of_rows rows) !! i))
                      (seq 0 (length (Pandas.values (Pandas.of_rows rows))))).
    - destruct (of_rows_lengths rows) as [_ ->].
      apply Permutation_map, choice_all.
    - now rewrite map_lookup_seq. }
  split; [|split; [exact Hperm|]].
  - unfold Converter.transform, Converter._create_xlsx, Converter.point_data.
    now rewrite Hrows, Hdf, bind_Ok.
  - intros Hthree. now rewrite <- (of_rows_values_3 rows Hthree).
Qed.

Lemma transform_all_rows_once_witness :
  exists grid,
    Converter.transform (disk ten_points) scan_txt float_one 3
    = (Ok tt, <["/data/scan.xlsx" := File true (xlsx grid)]> (disk ten_points)) /\
    grid ≡ₚ map (map Some) (map row_of (data_lines ten_points)).
Proof.
  destruct (transform_all_rows_once (disk ten_points) scan_txt
              (map row_of (data_lines ten_points)) 3)
    as (grid & Ht & _ & Hperm); try reflexivity.
  exists grid. split; [exact Ht|]. apply Hperm.
  repeat constructor.
Defined.

Lemma fill_length w (row : list str) :
  (length row <= w)%nat -> length (Pandas.fill w row) = w.
Proof.
  intros Hw. unfold Pandas.fill.
  rewrite length_app, length_map, length_replicate. lia.
Qed.

Lemma of_rows_rectangular (data : list (list str)) :
  Forall (fun g => length g = max_list (map length data))
         (Pandas.values (Pandas.of_rows data)).
Proof.
  cbn [Pandas.of_rows Pandas.values]. apply Forall_forall. intros g Hg.
  apply list_elem_of_In, in_map_iff in Hg as (r & <- & Hr).
  apply fill_length, max_list_elem_of_le.
  apply list_elem_of_In, in_map_iff. now exists r.
Qed.

(** X9. The grid that [transform] writes is a rectangle: every row has
    as many cells as the longest parsed row has fields, a shorter row
    being filled up with empty cells. *)
Theorem transform_writes_a_rectangle `{RandomState} `{ExcelWriter}
    (fs : gmap string file) (filepath : str) (subsample : float) (seed : Z)
    (fs' : gmap string file) :
  Converter.transform fs filepath subsample seed = (Ok tt, fs') ->
  exists rows grid,
    Converter.cleaned_cloud fs filepath = Ok rows /\
    fs' = <[Converter._xlsx_path filepath := File true (xlsx grid)]> fs /\
    Forall (fun g => length g = max_list (map length rows)) grid /\
    Forall (fun g => exists r, r ∈ rows /\
                     g = map Some r
                         ++ replicate (max_list (map length rows) - length r) None)
           grid.
Proof.
  unfold Converter.transform, Converter._create_xlsx, Converter.point_data.
  destruct (Converter.cleaned_cloud fs filepath) as [rows|e]; [|discriminate].
  pose proof (sample_cases rows subsample seed) as Hs.
  destruct (Pandas.sample_size subsample (length rows)) as [n|e].
  - destruct ((0 <=? n) && (n <=? Z.of_nat (length rows)))%Z.
    + destruct Hs as (df & -> & _ & _ & Hpos). rewrite bind_Ok. cbn [snd].
      intros [= <-]. exists rows, (Pandas.values df).
      split; [reflexivity|]. split; [reflexivity|].
      assert (Hin : forall g, g ∈ Pandas.values df ->
                              g ∈ Pandas.values (Pandas.of_rows rows)).
      { intros g Hg. apply list_elem_of_lookup_1 in Hg as [j Hj].
        destruct (Forall2_lookup_r _ _ _ _ _ Hpos Hj) as (i & _ & Hi).
        now apply list_elem_of_lookup_2 in Hi. }
      split; apply Forall_forall; intros g Hg; apply Hin in Hg.
      * exact (proj1 (Forall_forall _ _) (of_rows_rectangular rows) g Hg).
      * cbn [Pandas.of_rows Pandas.values] in Hg.
        apply list_elem_of_In, in_map_iff in Hg as (r & <- & Hr).
        exists r. split; [now apply list_elem_of_In | reflexivity].
    + rewrite Hs. discriminate.
  - rewrite Hs. discriminate.
Qed.

Lemma transform_writes_a_rectangle_witness :
  exists grid,
    snd (Converter.transform
           (disk (line_of "1" "2" "3" +:+ "4,5,6,7" +:+ CRLF)) scan_txt float_one 0)
    = <["/data/scan.xlsx" := File true (xlsx grid)]>
        (disk (line_of "1" "2" "3" +:+ "4,5,6,7" +:+ CRLF)) /\
    Forall (fun g => length g = 4%nat) grid.
Proof.
  set (fs := disk (line_of "1" "2" "3" +:+ "4,5,6,7" +:+ CRLF)).
  assert (Hfst : fst (Converter.transform fs scan_txt float_one 0) = Ok tt)
    by reflexivity.
  assert (E : Converter.transform fs scan_txt float_one 0
              = (Ok tt, snd (Converter.transform fs scan_txt float_one 0)))
    by (rewrite <- Hfst; apply surjective_pairing).
  destruct (transform_writes_a_rectangle _ _ _ _ _ E)
    as (rows & grid & Hrows & Hfs & Hrect & _).
  assert (Erows : Ok rows = Ok [["1"; "2"; "3"]; ["4"; "5"; "6"; "7" +:+ CRLF]])
    by (rewrite <- Hrows; reflexivity).
  injection Erows as ->. exists grid. split; [exact Hfs | exact Hrect].
Defined.

(** ** Paths again *)

Section MorePaths.
Import PosixPath.

Lemma rfind_from_all c s : forall i last,
  all_char c s = true -> s <> "" ->
  rfind_from c s i last = Z.of_nat (i + String.length s - 1).
Proof.
  induction s as [|a s IH]; intros i last Hall Hne; [congruence|].
  cbn [all_char] in Hall. apply andb_true_iff in Hall as [Ha Hs].
  cbn [rfind_from String.length]. rewrite Ha.
  destruct s as [|b s].
  - cbn [rfind_from String.length]. f_equal. lia.
  - rewrite (IH (S i) _ Hs) by discriminate. f_equal. cbn [String.length]. lia.
Qed.

Lemma other_than_dot_dots dots rest : forall n,
  all_char "." dots = true -> (n <= String.length dots)%nat ->
  other_than_dot (dots +:+ rest) 0 n = false.
Proof.
  induction dots as [|a dots IH]; intros n Hall Hn.
  - simpl in Hn. now replace n with 0%nat by lia.
  - destruct n as [|n]; [reflexivity|].
    cbn [all_char] in Hall. apply andb_true_iff in Hall as [Ha Hd].
    rewrite app_str_cons. cbn [other_than_dot String.get]. rewrite Ha.
    rewrite other_than_dot_cons. apply IH; [assumption|]. simpl in Hn. lia.
Qed.

Lemma all_char_contains c d s :
  all_char c s = true -> c <> d -> contains d s = false.
Proof.
  intros Hall Hne. induction s as [|a s IH]; [reflexivity|].
  cbn [all_char] in Hall. apply andb_true_iff in Hall as [Ha Hs].
  cbn [contains]. rewrite (IH Hs), orb_false_r.
  apply Ascii.eqb_eq in Ha. subst a. now apply Ascii.eqb_neq.
Qed.

(** A name made of dots followed by a part with no dot has no extension. *)
Lemma splitext_no_extension dots rest :
  all_char "." dots = true ->
  contains "." rest = false -> contains "/" rest = false ->
  splitext (dots +:+ rest) = (dots +:+ rest, "").
Proof.
  intros Hd Hr Hs. unfold splitext.
  assert (Hsep : rfind "/" (dots +:+ rest) = (-1)%Z).
  { unfold rfind. apply rfind_from_absent. rewrite contains_app, Hs.
    now rewrite (all_char_contains "." "/" dots Hd). }
  rewrite Hsep. destruct dots as [|a dots].
  - cbn [String.append]. unfold rfind. now rewrite rfind_from_absent.
  - assert (Hdot : rfind "." (String a dots +:+ rest)
                   = Z.of_nat (String.length (String a dots) - 1)).
    { unfold rfind. rewrite rfind_from_app, (rfind_from_absent _ rest) by assumption.
      now rewrite (rfind_from_all "." (String a dots) 0 (-1) Hd). }
    rewrite Hdot. change (Z.to_nat (-1 + 1)) with 0%nat.
    rewrite other_than_dot_dots; [|assumption|cbn [String.length]; lia].
    now rewrite andb_false_r.
Qed.

(** X10. A file name with no extension (one with no dot, or with dots
    at its head only) gets [.xlsx] added to the whole name. *)
Theorem xlsx_path_of_a_name_without_extension (dir dots rest : str) :
  endswith dir "/" = false ->
  all_char "." dots = true ->
  contains "." rest = false -> contains "/" rest = false ->
  Converter._xlsx_path (dir +:+ "/" +:+ dots +:+ rest)
  = dir +:+ "/" +:+ dots +:+ rest +:+ ".xlsx".
Proof.
  intros Hdir Hd Hr Hs. unfold Converter._xlsx_path.
  assert (Hname : contains "/" (dots +:+ rest) = false).
  { rewrite contains_app, Hs. now rewrite (all_char_contains "." "/" dots Hd). }
  rewrite split_dir_file by assumption.
  rewrite splitext_no_extension by assumption. cbn [fst]. unfold join.
  assert (Hstart : startswith ((dots +:+ rest) +:+ ".xlsx") "/" = false).
  { destruct (dots +:+ rest) as [|a name] eqn:E; [reflexivity|].
    cbn [contains] in Hname. apply orb_false_elim in Hname as [Ha _].
    rewrite app_str_cons. cbn [startswith]. now rewrite Ascii.eqb_sym, Ha. }
  rewrite Hstart, app_str_assoc.
  destruct dir as [|b dir]; [reflexivity|].
  cbn [String.eqb]. rewrite Hdir. reflexivity.
Qed.

Lemma xlsx_path_of_a_name_without_extension_witness :
  Converter._xlsx_path "/home/me/.points" = "/home/me/.points.xlsx" /\
  Converter._xlsx_path "/home/me/points" = "/home/me/points.xlsx".
Proof.
  split.
  - apply (xlsx_path_of_a_name_without_extension "/home/me" "." "points");
      reflexivity.
  - apply (xlsx_path_of_a_name_without_extension "/home/me" "" "points");
      reflexivity.
Defined.

End MorePaths.

(** X11. When the input itself is named [.xlsx], the workbook is written
    over it: after a [transform] that raises nothing the input path holds
    the workbook, and the text that was parsed is gone. *)
Theorem transform_of_a_workbook_name_replaces_the_input
    `{RandomState} `{ExcelWriter}
    (fs fs' : gmap string file) (dir stem : str) (subsample : float) (seed : Z) :
  let filepath := dir +:+ "/" +:+ stem +:+ ".xlsx" in
  PosixPath.endswith dir "/" = false ->
  contains "/" stem = false -> PosixPath.all_char "." stem = false ->
  Converter.transform fs filepath subsample seed = (Ok tt, fs') ->
  exists grid, fs' !! filepath = Some (File true (xlsx grid)).
Proof.
  intros filepath Hdir Hs Hnd Ht.
  assert (Hpath : Converter._xlsx_path filepath = filepath).
  { unfold filepath.
    change (dir +:+ "/" +:+ stem +:+ ".xlsx")
      with (dir +:+ "/" +:+ stem +:+ "." +:+ "xlsx").
    now apply xlsx_path_replaces_extension. }
  destruct (transform_cases fs filepath subsample seed) as [[e He]|[grid Hg]].
  - rewrite He in Ht. discriminate Ht.
  - rewrite Hg, Hpath in Ht. injection Ht as <-.
    exists grid. apply lookup_insert_eq.
Qed.

Lemma transform_of_a_workbook_name_replaces_the_input_witness :
  exists grid,
    snd (Converter.transform {[ "/data/scan.xlsx" := File true ten_points ]}
           "/data/scan.xlsx" float_half 2) !! "/data/scan.xlsx"
    = Some (File true (xlsx grid)).
Proof.
  set (fs := {[ "/data/scan.xlsx" := File true ten_points ]} : gmap string file).
  assert (Hfst : fst (Converter.transform fs "/data/scan.xlsx" float_half 2) = Ok tt)
    by reflexivity.
  assert (E : Converter.transform fs "/data/scan.xlsx" float_half 2
              = (Ok tt, snd (Converter.transform fs "/data/scan.xlsx" float_half 2)))
    by (rewrite <- Hfst; apply surjective_pairing).
  exact (transform_of_a_workbook_name_replaces_the_input fs _ "/data" "scan"
           float_half 2 eq_refl eq_refl eq_refl E).
Defined.

Section Resources.
Import PosixPath.

Lemma endswith_app a b c : b <> "" -> endswith (a +:+ b) c = endswith b c.
Proof.
  intros Hb. induction a as [|x a IH]; [reflexivity|].
  rewrite app_str_cons. cbn [endswith].
  destruct (a +:+ b) as [|y s] eqn:E; [|exact IH].
  destruct a; [cbn in E; congruence | discriminate E].
Qed.

Lemma endswith_contains s c : endswith s c = true -> contains c s = true.
Proof.
  induction s as [|a s IH]; [discriminate|].
  cbn [endswith contains]. destruct s as [|b s].
  - intros ->. reflexivity.
  - intros Hs. rewrite (IH Hs). apply orb_true_r.
Qed.

Lemma endswith_no_sep s c : contains c s = false -> endswith s c = false.
Proof.
  intros Hc. destruct (endswith s c) eqn:E; [|reflexivity].
  apply endswith_contains in E. congruence.
Qed.

Lemma eqb_nonempty s : s <> "" -> String.eqb s "" = false.
Proof. destruct s; [congruence | reflexivity]. Qed.

(** Joining a directory that does not end in a slash and a relative part. *)
Lemma join_relative a b :
  a <> "" -> endswith a "/" = false -> startswith b "/" = false ->
  join a b = a +:+ "/" +:+ b.
Proof.
  intros Ha He Hb. unfold join. now rewrite Hb, (eqb_nonempty a Ha), He.
Qed.

Lemma join_absolute a b : startswith b "/" = true -> join a b = b.
Proof. intros Hb. unfold join. now rewrite Hb. Qed.

Lemma app_nonempty_r (a b : str) : b <> "" -> a +:+ b <> "".
Proof. destruct a; [now cbn | discriminate]. Qed.

(** X12. Where [resource_path] looks: a path that starts with a slash
    is returned as it is; a relative one is looked up under [data] of
    the bundle when there is a bundle, and otherwise under [data/images]
    two directories above the program file. *)
Theorem resource_path_locations (meipass : option str) (file rel : str) :
  (startswith rel "/" = true -> resource_path meipass file rel = rel) /\
  (startswith rel "/" = false ->
   forall m, meipass = Some m -> m <> "" -> endswith m "/" = false ->
             resource_path meipass file rel = m +:+ "/data/" +:+ rel) /\
  (startswith rel "/" = false ->
   forall root pkg module,
     meipass = None ->
     file = root +:+ "/" +:+ pkg +:+ "/" +:+ module ->
     root <> "" -> endswith root "/" = false ->
     pkg <> "" -> contains "/" pkg = false -> contains "/" module = false ->
     resource_path meipass file rel = root +:+ "/data/images/" +:+ rel).
Proof.
  split; [|split].
  - intros Hrel. unfold resource_path. now apply join_absolute.
  - intros Hrel m -> Hm Hend. unfold resource_path.
    rewrite (join_relative m "data") by (assumption || reflexivity).
    rewrite join_relative; try assumption.
    + now rewrite !app_str_assoc.
    + now apply app_nonempty_r.
    + now rewrite endswith_app.
  - intros Hrel root pkg module -> -> Hroot Hend Hpkg Hsep Hmod.
    unfold resource_path, dirname, join_all. cbn [fold_left].
    replace (root +:+ "/" +:+ pkg +:+ "/" +:+ module)
      with ((root +:+ "/" +:+ pkg) +:+ "/" +:+ module)
      by (now rewrite !app_str_assoc).
    rewrite (split_dir_file (root +:+ "/" +:+ pkg) module); [|
      rewrite endswith_app by (now apply app_nonempty_r);
      rewrite endswith_app by assumption; now apply endswith_no_sep
      | assumption].
    rewrite eqb_nonempty by (now apply app_nonempty_r; apply app_nonempty_r).
    cbn [fst]. rewrite (split_dir_file root pkg) by assumption.
    rewrite (eqb_nonempty root Hroot). cbn [fst].
    rewrite (join_relative root "data") by (assumption || reflexivity).
    rewrite (join_relative (root +:+ "/" +:+ "data") "images");
      [| now apply app_nonempty_r | now rewrite endswith_app | reflexivity].
    rewrite join_relative; try assumption.
    + now rewrite !app_str_assoc.
    + now apply app_nonempty_r.
    + now rewrite endswith_app.
Qed.

Lemma resource_path_locations_witness :
  resource_path (Some "/tmp/_MEI42") "/tmp/_MEI42/app.py" "sulzer.png"
  = "/tmp/_MEI42/data/sulzer.png" /\
  resource_path None "/opt/pcc/src/point_cloud_converter.py" "sulzer.png"
  = "/opt/pcc/data/images/sulzer.png" /\
  resource_path None "/opt/pcc/src/point_cloud_converter.py" "/usr/share/x.png"
  = "/usr/share/x.png".
Proof.
  split; [|split].
  - apply (proj1 (proj2 (resource_path_locations (Some "/tmp/_MEI42")
                           "/tmp/_MEI42/app.py" "sulzer.png")) eq_refl
             "/tmp/_MEI42" eq_refl); [discriminate | reflexivity].
  - apply (proj2 (proj2 (resource_path_locations None
                           "/opt/pcc/src/point_cloud_converter.py" "sulzer.png"))
             eq_refl "/opt/pcc" "src" "point_cloud_converter.py" eq_refl eq_refl);
      (discriminate || reflexivity).
  - apply (proj1 (resource_path_locations None
                    "/opt/pcc/src/point_cloud_converter.py" "/usr/share/x.png")).
    reflexivity.
Defined.

End Resources.

(** ** Floats: what [float] of a string returns is a binary64 number *)

Section FloatValidity.
Local Open Scope Z_scope.

Lemma Zdigits2_nonneg m : 0 <= Zdigits2 m.
Proof. destruct m; cbn [Zdigits2]; lia. Qed.

Lemma Zdigits2_bounds m :
  0 < m -> 2 ^ (Zdigits2 m - 1) <= m < 2 ^ Zdigits2 m.
Proof.
  intros Hm. destruct m as [|p|p]; try lia. exact (digits2_pos_bounds p).
Qed.

Lemma Zdigits2_pos m : 0 < m -> 0 < Zdigits2 m.
Proof. intros Hm. destruct m; cbn [Zdigits2]; lia. Qed.

Lemma Zdigits2_ge m j : 0 <= j -> 2 ^ j <= m -> j + 1 <= Zdigits2 m.
Proof.
  intros Hj Hle.
  assert (Hm : 0 < m) by (pose proof (Z.pow_pos_nonneg 2 j); lia).
  pose proof (Zdigits2_bounds m Hm) as [_ Hhi].
  destruct (Z_lt_le_dec j (Zdigits2 m)) as [|Hge]; [lia|].
  assert (2 ^ Zdigits2 m <= 2 ^ j)
    by (apply Z.pow_le_mono_r; [lia | assumption]).
  lia.
Qed.

Lemma Zdigits2_mono m n : 0 < m -> m <= n -> Zdigits2 m <= Zdigits2 n.
Proof.
  intros Hm Hle. pose proof (Zdigits2_bounds m Hm) as [Hlo _].
  pose proof (Zdigits2_pos m Hm).
  pose proof (Zdigits2_ge n (Zdigits2 m - 1) ltac:(lia) ltac:(lia)). lia.
Qed.

(** The digits of a number shifted to the right. *)
Lemma Zdigits2_shift m k :
  0 < m -> 0 <= k ->
  (k < Zdigits2 m -> 0 < m / 2 ^ k /\ Zdigits2 (m / 2 ^ k) = Zdigits2 m - k) /\
  (Zdigits2 m <= k -> m / 2 ^ k = 0).
Proof.
  intros Hm Hk. pose proof (Zdigits2_bounds m Hm) as [Hlo Hhi].
  assert (Hp : 0 < 2 ^ k) by (apply Z.pow_pos_nonneg; lia).
  split.
  - intros Hlt.
    assert (Hlow : 2 ^ (Zdigits2 m - k - 1) <= m / 2 ^ k).
    { apply Z.div_le_lower_bound; [assumption|].
      rewrite <- Z.pow_add_r by lia.
      now replace (k + (Zdigits2 m - k - 1)) with (Zdigits2 m - 1) by lia. }
    assert (Hup : m / 2 ^ k < 2 ^ (Zdigits2 m - k)).
    { apply Z.div_lt_upper_bound; [assumption|].
      rewrite <- Z.pow_add_r by lia.
      now replace (k + (Zdigits2 m - k)) with (Zdigits2 m) by lia. }
    assert (Hq : 0 < m / 2 ^ k).
    { pose proof (Z.pow_pos_nonneg 2 (Zdigits2 m - k - 1) ltac:(lia) ltac:(lia)).
      lia. }
    split; [exact Hq|]. apply Zdigits2_unique; [exact Hq|].
    split; [exact Hlow | exact Hup].
  - intros Hge. apply Z.div_small. split; [lia|].
    assert (2 ^ Zdigits2 m <= 2 ^ k) by (apply Z.pow_le_mono_r; lia). lia.
Qed.

(** A shift by the amount the format asks for, from any location. *)
Lemma shr_fexp_any m e l :
  0 <= m -> e <= fexp prec emax (Zdigits2 m + e) ->
  exists r' s',
    shr_fexp prec emax m e l
    = (Build_shr_record (m / 2 ^ (fexp prec emax (Zdigits2 m + e) - e)) r' s',
       fexp prec emax (Zdigits2 m + e)).
Proof.
  intros Hm Hpre. unfold shr_fexp, shr.
  destruct (fexp prec emax (Zdigits2 m + e) - e) as [|p|p] eqn:Hk; try lia.
  - destruct (shr_record_of_loc m l) as [m0 r0 s0] eqn:E.
    assert (m0 = m) as -> by (destruct l as [|[| |]]; cbn in E; congruence).
    exists r0, s0. rewrite Z.pow_0_r, Z.div_1_r. f_equal. lia.
  - rewrite iter_pos_nat.
    destruct (shr_record_of_loc m l) as [m0 r0 s0] eqn:E.
    assert (m0 = m) as -> by (destruct l as [|[| |]]; cbn in E; congruence).
    destruct (iter_shr_1 (Pos.to_nat p) m r0 s0 Hm) as (r' & s' & -> & _).
    rewrite positive_nat_Z. exists r', s'. f_equal. lia.
Qed.

(** After such a shift what is left is zero at the least exponent, or a
    mantissa with the digits of the format. *)
Lemma shr_fexp_canonical m e l :
  0 <= m -> e <= fexp prec emax (Zdigits2 m + e) ->
  exists m' r' s' e',
    shr_fexp prec emax m e l = (Build_shr_record m' r' s', e') /\
    ((m' = 0 /\ e' = -1074) \/
     (0 < m' /\ fexp prec emax (Zdigits2 m' + e') = e')).
Proof.
  intros Hm Hpre. destruct (shr_fexp_any m e l Hm Hpre) as (r' & s' & ->).
  eexists _, r', s', _. split; [reflexivity|].
  rewrite !fexp_eq. rewrite fexp_eq in Hpre.
  destruct (Z.eq_dec m 0) as [->|Hnz].
  - left. cbn [Zdigits2] in *. split; [|lia].
    assert (0 < 2 ^ (Z.max (0 + e - 53) (-1074) - e))
      by (apply Z.pow_pos_nonneg; lia).
    apply Z.div_0_l. lia.
  - pose proof (Zdigits2_pos m ltac:(lia)) as Hd.
    destruct (Zdigits2_shift m (Z.max (Zdigits2 m + e - 53) (-1074) - e)
                ltac:(lia) ltac:(lia)) as [Hlt Hge].
    destruct (Z_lt_le_dec (Z.max (Zdigits2 m + e - 53) (-1074) - e) (Zdigits2 m))
      as [Hk|Hk].
    + right. destruct (Hlt Hk) as [Hq Hdq]. split; [exact Hq|].
      rewrite Hdq. lia.
    + left. split; [now apply Hge | lia].
Qed.

(** What [binary_round_aux] returns is a number of the format, for a
    mantissa that is not too short for its exponent. *)
Lemma binary_round_aux_valid s mx ex lx :
  0 <= mx -> ex <= fexp prec emax (Zdigits2 mx + ex) ->
  valid_binary prec emax (binary_round_aux prec emax s mx ex lx) = true.
Proof.
  intros Hm Hpre. unfold binary_round_aux.
  destruct (shr_fexp_canonical mx ex lx Hm Hpre)
    as (m1 & r1 & s1 & e1 & -> & Hc1).
  cbn [shr_m].
  set (m2 := round_nearest_even m1 _).
  assert (Hm2 : 0 <= m1 <= m2 /\ m2 <= m1 + 1).
  { destruct (round_nearest_even_bound m1 r1 s1) as [E|[E _]];
      fold m2 in E; rewrite E; destruct Hc1 as [[-> _]|[? _]]; lia. }
  clearbody m2.
  assert (Hpre2 : e1 <= fexp prec emax (Zdigits2 m2 + e1)).
  { rewrite fexp_eq in *. destruct Hc1 as [[_ ->]|[Hpos Hc]]; [lia|].
    pose proof (Zdigits2_mono m1 m2 Hpos ltac:(lia)). lia. }
  destruct (shr_fexp_canonical m2 e1 loc_Exact ltac:(lia) Hpre2)
    as (m3 & r3 & s3 & e3 & -> & Hc3).
  cbn [shr_m]. destruct Hc3 as [[-> _]|[Hpos Hc]]; [reflexivity|].
  destruct m3 as [|p|p]; try lia.
  destruct (e3 <=? emax - prec) eqn:Hle; [|reflexivity].
  cbn [valid_binary]. unfold bounded, canonical_mantissa.
  rewrite Hle, andb_true_r. apply Z.eqb_eq. exact Hc.
Qed.

Lemma binary_round_valid s m e :
  valid_binary prec emax (binary_round prec emax s m e) = true.
Proof.
  unfold binary_round, shl_align.
  destruct (fexp prec emax (Zpos (digits2_pos m) + e) - e) as [|p|p] eqn:Hk.
  - apply binary_round_aux_valid; [lia|]. cbn [Zdigits2]. lia.
  - apply binary_round_aux_valid; [lia|]. cbn [Zdigits2]. lia.
  - apply binary_round_aux_valid; [lia|]. cbn [Zdigits2].
    rewrite iter_xO_digits. rewrite fexp_eq in Hk. rewrite !fexp_eq.
    pose proof (Pos2Z.opp_pos p). lia.
Qed.

Lemma binary_normalize_valid m e s :
  valid_binary prec emax (binary_normalize prec emax m e s) = true.
Proof. destruct m; [reflexivity | apply binary_round_valid ..]. Qed.

(** The quotient that the division hands to the rounding has digits
    enough for its exponent. *)
Lemma SFdiv_core_binary_pre p1 e1 p2 e2 :
  let '(q, e', _) := SFdiv_core_binary prec emax (Zpos p1) e1 (Zpos p2) e2 in
  0 <= q /\ e' <= fexp prec emax (Zdigits2 q + e').
Proof.
  unfold SFdiv_core_binary.
  remember (Zdigits2 (Zpos p1)) as d1 eqn:Ed1.
  remember (Zdigits2 (Zpos p2)) as d2 eqn:Ed2.
  remember (Z.min (fexp prec emax (d1 + e1 - (d2 + e2))) (e1 - e2)) as e' eqn:Ee'.
  remember (e1 - e2 - e') as s eqn:Es.
  rewrite fexp_eq in Ee'.
  assert (Hs : 0 <= s) by lia.
  remember (match s with
            | 0 => Zpos p1
            | Zpos _ => Z.shiftl (Zpos p1) s
            | Zneg _ => 0
            end) as m' eqn:Em'.
  assert (Hm' : m' = Zpos p1 * 2 ^ s).
  { rewrite Em'. destruct s as [|ps|ps]; try lia.
    now rewrite Z.shiftl_mul_pow2 by lia. }
  clear Em'.
  destruct (Z.div_eucl m' (Zpos p2)) as [q r] eqn:E.
  assert (Hq : q = m' / Zpos p2) by (unfold Z.div; now rewrite E).
  assert (Hp : 0 < 2 ^ s) by (apply Z.pow_pos_nonneg; lia).
  assert (Hq0 : 0 <= q) by (rewrite Hq; apply Z.div_pos; lia).
  split; [exact Hq0|].
  rewrite fexp_eq.
  destruct (Z_le_gt_dec e' (-1074)) as [Hlow|Hhigh]; [lia|].
  assert (He' : e' <= d1 + e1 - (d2 + e2) - 53) by lia.
  pose proof (Zdigits2_bounds (Zpos p1) ltac:(lia)) as [Hlo1 _].
  pose proof (Zdigits2_bounds (Zpos p2) ltac:(lia)) as [_ Hhi2].
  rewrite <- Ed1 in Hlo1. rewrite <- Ed2 in Hhi2.
  pose proof (Zdigits2_pos (Zpos p1) ltac:(lia)) as Hd1. rewrite <- Ed1 in Hd1.
  pose proof (Zdigits2_pos (Zpos p2) ltac:(lia)) as Hd2. rewrite <- Ed2 in Hd2.
  assert (Hj : 0 <= d1 - 1 + s - d2) by lia.
  assert (Hlow : 2 ^ (d1 - 1 + s - d2) <= q).
  { rewrite Hq. apply Z.div_le_lower_bound; [lia|].
    assert (Hsplit : 2 ^ (d1 - 1 + s) = 2 ^ d2 * 2 ^ (d1 - 1 + s - d2)).
    { rewrite <- Z.pow_add_r by lia. f_equal. lia. }
    assert (Hpow : 2 ^ (d1 - 1 + s) = 2 ^ (d1 - 1) * 2 ^ s)
      by (apply Z.pow_add_r; lia).
    assert (0 < 2 ^ (d1 - 1 + s - d2)) by (apply Z.pow_pos_nonneg; lia).
    rewrite Hm'. nia. }
  pose proof (Zdigits2_ge q _ Hj Hlow) as Hdq. lia.
Qed.

Lemma SFdiv_integers_valid s1 p1 s2 p2 :
  valid_binary prec emax
    (SFdiv prec emax (S754_finite s1 p1 0) (S754_finite s2 p2 0)) = true.
Proof.
  cbn [SFdiv]. pose proof (SFdiv_core_binary_pre p1 0 p2 0) as Hpre.
  destruct (SFdiv_core_binary prec emax (Zpos p1) 0 (Zpos p2) 0) as [[q e'] l].
  destruct Hpre as [Hq He]. now apply binary_round_aux_valid.
Qed.

Lemma float_of_decimal_valid neg m e :
  float_valid (float_of_decimal neg m e) = true.
Proof.
  unfold float_valid, float_of_decimal. destruct m as [|p|p]; try reflexivity.
  destruct (0 <=? e).
  - apply binary_normalize_valid.
  - apply SFdiv_integers_valid.
Qed.

(** What [float] makes of a string is a number of the format. *)
Lemma float_of_str_valid s v : float_of_str s = Ok v -> float_valid v = true.
Proof.
  unfold float_of_str, decimal.
  repeat match goal with
         | |- context [let '(_, _) := ?x in _] => destruct x
         | |- context [match ?x with _ => _ end] => destruct x
         | |- context [if ?x then _ else _] => destruct x
         end;
    intros [= <-]; try reflexivity; apply float_of_decimal_valid.
Qed.

End FloatValidity.

(** ** The hint under the field *)

Lemma cleaned_cloud_raise (fs : gmap string file) filepath e :
  Converter.cleaned_cloud fs filepath = Raise e -> e = IOError \/ e = IndexError.
Proof.
  unfold Converter.cleaned_cloud, open_rb.
  destruct (fs !! filepath) as [f|]; [|intros [= <-]; now left].
  destruct (readable f); [|intros [= <-]; now left].
  rewrite bind_Ok. generalize (@nil (list str)).
  induction (readlines (content f)) as [|l lines IH]; intros acc; [discriminate|].
  cbn [for_each]. destruct (clean_line acc l) as [acc'|e'] eqn:E.
  - cbn [bind]. apply IH.
  - cbn [bind]. intros [= <-]. right. exact (clean_line_raise _ _ _ E).
Qed.

Lemma preview_by_size `{RandomState}
    (fs : gmap string file) filepath rows x seed :
  Converter.cleaned_cloud fs filepath = Ok rows ->
  Converter.preview fs filepath x seed =
  match Pandas.sample_size x (length rows) with
  | Ok n => if ((0 <=? n) && (n <=? Z.of_nat (length rows)))%Z
            then Ok (Z.to_nat n) else Raise ValueError
  | Raise e => Raise e
  end.
Proof.
  intros Hrows. unfold Converter.preview, Converter.point_data.
  rewrite Hrows, bind_Ok. pose proof (sample_cases rows x seed) as Hs.
  destruct (Pandas.sample_size x (length rows)) as [n|e].
  - destruct ((0 <=? n) && (n <=? Z.of_nat (length rows)))%Z.
    + destruct Hs as (df & -> & Hidx & _). rewrite !bind_Ok. cbn [fst].
      now rewrite Hidx.
    + now rewrite Hs.
  - now rewrite Hs.
Qed.

(** X13. For a file that parses, what [update_hint] leaves in the label:
    the three stars in red when the text of the field is no number, or
    when the number asks for fewer than 0 or more than all the rows; the
    count and [points], in black, otherwise.  It checks nothing else
    about the number, and an [OverflowError] of the sampling is not
    caught. *)
Theorem update_hint_feedback `{RandomState}
    (fs : gmap string file) (filepath : str) (rows : list (list str))
    (le : str) (label : QLabel) (seed : Z) :
  Converter.cleaned_cloud fs filepath = Ok rows ->
  ConverterApp.update_hint fs filepath le label seed =
  match float_of_str le with
  | Raise _ => Ok (Label red "***")
  | Ok x =>
      match Pandas.sample_size x (length rows) with
      | Ok n =>
          if ((0 <=? n) && (n <=? Z.of_nat (length rows)))%Z
          then Ok (Label black (str_of_nat (Z.to_nat n) +:+ " points"))
          else Ok (Label red "***")
      | Raise ValueError => Ok (Label red "***")
      | Raise e => Raise e
      end
  end.
Proof.
  intros Hrows. unfold ConverterApp.update_hint, ConverterApp.subsample.
  destruct (float_of_str le) as [x|e] eqn:Hle.
  - rewrite bind_Ok, (preview_by_size fs filepath rows x seed Hrows).
    destruct (Pandas.sample_size x (length rows)) as [n|e].
    + now destruct ((0 <=? n) && (n <=? Z.of_nat (length rows)))%Z.
    + now destruct e.
  - rewrite bind_Raise, (float_of_str_raise le e Hle). reflexivity.
Qed.

Lemma update_hint_feedback_witness :
  ConverterApp.update_hint (disk ten_points) scan_txt "0.5" (Label "" "") 1
  = Ok (Label black "5 points") /\
  ConverterApp.update_hint (disk ten_points) scan_txt "1.5" (Label "" "") 1
  = Ok (Label red "***") /\
  ConverterApp.update_hint (disk ten_points) scan_txt "0" (Label "" "") 1
  = Ok (Label black "0 points").
Proof.
  assert (Hrows : Converter.cleaned_cloud (disk ten_points) scan_txt
                  = Ok (map row_of (data_lines ten_points))) by reflexivity.
  split; [|split];
    rewrite (update_hint_feedback _ _ _ _ _ _ Hrows); reflexivity.
Defined.

(** X14. For a file that does not parse, [update_hint] does not catch
    the error when the text of the field is a number: the [IOError] or
    [IndexError] of the parsing comes out of it.  When the text is no
    number the file is not looked at and the label shows the three stars. *)
Theorem update_hint_lets_parse_errors_out `{RandomState}
    (fs : gmap string file) (filepath : str) (e : exn)
    (le : str) (label : QLabel) (seed : Z) :
  Converter.cleaned_cloud fs filepath = Raise e ->
  ConverterApp.update_hint fs filepath le label seed =
  match float_of_str le with
  | Raise _ => Ok (Label red "***")
  | Ok _ => Raise e
  end.
Proof.
  intros Hrows. unfold ConverterApp.update_hint, ConverterApp.subsample.
  destruct (float_of_str le) as [x|e'] eqn:Hle.
  - rewrite bind_Ok. unfold Converter.preview. rewrite Hrows, bind_Raise.
    destruct (cleaned_cloud_raise _ _ _ Hrows) as [-> | ->]; reflexivity.
  - rewrite bind_Raise, (float_of_str_raise le e' Hle). reflexivity.
Qed.

Lemma update_hint_lets_parse_errors_out_witness :
  ConverterApp.update_hint (disk ("1,2" +:+ CRLF)) scan_txt "1.0" (Label "" "") 0
  = Raise IndexError /\
  ConverterApp.update_hint (disk ("1,2" +:+ CRLF)) scan_txt "one" (Label "" "") 0
  = Ok (Label red "***").
Proof.
  assert (Hrows : Converter.cleaned_cloud (disk ("1,2" +:+ CRLF)) scan_txt
                  = Raise IndexError) by reflexivity.
  split; rewrite (update_hint_lets_parse_errors_out _ _ _ _ _ _ Hrows);
    reflexivity.
Defined.

Lemma sample_size_infinite s (N : nat) :
  (0 < Z.of_nat N < 2 ^ 53)%Z ->
  Pandas.sample_size (S754_infinity s) N = Raise OverflowError.
Proof.
  intros HN. unfold Pandas.sample_size.
  destruct (float_of_int_small _ HN) as (m & e & -> & _). reflexivity.
Qed.

(** X15. When the text of the field reads as an infinite float and the
    file has a row, [update_hint] raises [OverflowError]. *)
Theorem update_hint_overflows_at_infinity `{RandomState}
    (fs : gmap string file) (filepath : str) (rows : list (list str))
    (le : str) (s : bool) (label : QLabel) (seed : Z) :
  Converter.cleaned_cloud fs filepath = Ok rows ->
  (0 < Z.of_nat (length rows) < 2 ^ 53)%Z ->
  float_of_str le = Ok (S754_infinity s) ->
  ConverterApp.update_hint fs filepath le label seed = Raise OverflowError.
Proof.
  intros Hrows HN Hle. unfold ConverterApp.update_hint, ConverterApp.subsample.
  rewrite Hle, bind_Ok, (preview_by_size fs filepath rows _ seed Hrows).
  now rewrite sample_size_infinite.
Qed.

Lemma update_hint_overflows_at_infinity_witness :
  float_of_str "1e999" = Ok (S754_infinity false) /\
  ConverterApp.update_hint (disk ten_points) scan_txt "1e999" (Label "" "") 0
  = Raise OverflowError.
Proof.
  split; [reflexivity|].
  apply (update_hint_overflows_at_infinity (disk ten_points) scan_txt
           (map row_of (data_lines ten_points)) "1e999" false);
    [reflexivity | split; reflexivity | reflexivity].
Defined.

(** ** The two applications from the file dialog to the workbook *)

Lemma validate_sub_Some le v :
  Converter.validate_sub le = Ok (Some v) ->
  float_of_str le = Ok v /\ float_valid v = true /\
  float_lt float_zero v = true /\ float_le v float_one = true.
Proof.
  unfold Converter.validate_sub.
  destruct (float_of_str le) as [x|e] eqn:Hle; [|destruct e; discriminate].
  destruct (float_lt float_zero x) eqn:Hlt; [|discriminate].
  destruct (float_le x float_one) eqn:Hle1; [|discriminate].
  intros [= <-]. repeat split; auto. exact (float_of_str_valid le x Hle).
Qed.

Lemma transform_by_size `{RandomState} `{ExcelWriter}
    (fs : gmap string file) filepath rows x seed n :
  Converter.cleaned_cloud fs filepath = Ok rows ->
  Pandas.sample_size x (length rows) = Ok n ->
  (0 <= n <= Z.of_nat (length rows))%Z ->
  exists grid,
    Converter.transform fs filepath x seed
    = (Ok tt, <[Converter._xlsx_path filepath := File true (xlsx grid)]> fs) /\
    length grid = Z.to_nat n.
Proof.
  intros Hrows Hn Hrange.
  destruct (sample_ok rows x seed n Hn Hrange) as (df & Hdf & _ & Hv & _).
  exists (Pandas.values df). split; [|exact Hv].
  unfold Converter.transform, Converter._create_xlsx, Converter.point_data.
  now rewrite Hrows, Hdf, bind_Ok.
Qed.

Lemma hint_at_one `{RandomState}
    (fs : gmap string file) filepath rows label seed :
  Converter.cleaned_cloud fs filepath = Ok rows ->
  (Z.of_nat (length rows) < 2 ^ 53)%Z ->
  exists l, ConverterApp.update_hint fs filepath "1.0" label seed = Ok l.
Proof.
  intros Hrows HN. unfold ConverterApp.update_hint, ConverterApp.subsample.
  change (float_of_str "1.0") with (Ok float_one).
  rewrite bind_Ok, (preview_by_size fs filepath rows _ seed Hrows).
  rewrite (sample_size_one _ HN).
  replace ((0 <=? Z.of_nat (length rows))
           && (Z.of_nat (length rows) <=? Z.of_nat (length rows)))%Z with true
    by (symmetry; apply andb_true_iff; split; apply Z.leb_le; lia).
  eauto.
Qed.

(** X16. The converter from its start to the workbook: when the file
    chosen parses and the text entered passes [validate_sub] as the
    fraction v, the run ends with the workbook saved, its grid of
    [int(round(v * N))] rows, N being the number of parsed rows. *)
Theorem converter_saves_for_a_valid_fraction `{RandomState} `{ExcelWriter}
    (fs : gmap string file) (filepath : str) (rows : list (list str))
    (le : str) (v : float) (label : QLabel) (seed_hint seed : Z) :
  Converter.cleaned_cloud fs filepath = Ok rows ->
  (Z.of_nat (length rows) < 2 ^ 53)%Z ->
  Converter.validate_sub le = Ok (Some v) ->
  exists n grid,
    Pandas.sample_size v (length rows) = Ok n /\
    (0 <= n <= Z.of_nat (length rows))%Z /\
    length grid = Z.to_nat n /\
    ConverterApp.__init__ fs (Some filepath) (Some le) label seed_hint seed
    = (Ok Saved, <[Converter._xlsx_path filepath := File true (xlsx grid)]> fs).
Proof.
  intros Hrows HN Hval.
  destruct (validate_sub_Some le v Hval) as (Hle & Hv & Hlt & Hle1).
  destruct (sample_size_bounds v _ Hv Hlt Hle1 HN) as (n & Hn & Hrange).
  destruct (transform_by_size fs filepath rows v seed n Hrows Hn Hrange)
    as (grid & Ht & Hlen).
  destruct (hint_at_one fs filepath rows label seed_hint Hrows HN) as [l Hl].
  exists n, grid. split; [exact Hn|]. split; [exact Hrange|]. split; [exact Hlen|].
  unfold ConverterApp.__init__, ConverterApp.start.
  rewrite Hl. unfold ConverterApp.subsample, ConverterApp.validate_sub_of_float.
  rewrite Hle, bind_Ok, Hlt, Hle1. cbn [andb]. now rewrite Ht.
Qed.

Lemma converter_saves_for_a_valid_fraction_witness :
  Converter.validate_sub " 0.25 " = Ok (Some (S754_finite false 4503599627370496 (-54))) /\
  exists grid,
    length grid = 3%nat /\
    ConverterApp.__init__ (disk ten_points) (Some scan_txt) (Some " 0.25 ")
      (Label "" "") 2 8
    = (Ok Saved, <["/data/scan.xlsx" := File true (xlsx grid)]> (disk ten_points)).
Proof.
  split; [reflexivity|].
  destruct (converter_saves_for_a_valid_fraction (disk ten_points) scan_txt
              (map row_of (data_lines ten_points)) " 0.25 "
              (S754_finite false 4503599627370496 (-54)) (Label "" "") 2 8)
    as (n & grid & Hn & _ & Hlen & Hrun); try reflexivity.
  assert (En : n = 3%Z) by (vm_compute in Hn; congruence).
  subst n. exists grid. split; [exact Hlen | exact Hrun].
Defined.

(** X17. The converter on a file that parses, with a text that does not
    pass: a text that is no number makes [start] raise [ValueError], with
    no warning shown; a number outside (0, 1] gets the warning.  Nothing
    is written in either case. *)
Theorem converter_rejects_without_writing `{RandomState} `{ExcelWriter}
    (fs : gmap string file) (filepath : str) (rows : list (list str))
    (le : str) (label : QLabel) (seed_hint seed : Z) :
  Converter.cleaned_cloud fs filepath = Ok rows ->
  (Z.of_nat (length rows) < 2 ^ 53)%Z ->
  ConverterApp.__init__ fs (Some filepath) (Some le) label seed_hint seed =
  match float_of_str le with
  | Raise _ => (Raise ValueError, fs)
  | Ok x =>
      if float_lt float_zero x && float_le x float_one
      then (match fst (Converter.transform fs filepath x seed) with
            | Ok _ => Ok Saved
            | Raise e => Raise e
            end,
            snd (Converter.transform fs filepath x seed))
      else (Ok Warned, fs)
  end.
Proof.
  intros Hrows HN.
  destruct (hint_at_one fs filepath rows label seed_hint Hrows HN) as [l Hl].
  unfold ConverterApp.__init__, ConverterApp.start.
  rewrite Hl. unfold ConverterApp.subsample, ConverterApp.validate_sub_of_float.
  destruct (float_of_str le) as [x|e] eqn:Hle.
  - rewrite bind_Ok.
    destruct (float_lt float_zero x && float_le x float_one); [|reflexivity].
    destruct (Converter.transform fs filepath x seed) as [[u|e] fs']; reflexivity.
  - rewrite bind_Raise, (float_of_str_raise le e Hle). reflexivity.
Qed.

Lemma converter_rejects_without_writing_witness :
  ConverterApp.__init__ (disk ten_points) (Some scan_txt) (Some "half")
    (Label "" "") 2 8 = (Raise ValueError, disk ten_points) /\
  ConverterApp.__init__ (disk ten_points) (Some scan_txt) (Some "1.5")
    (Label "" "") 2 8 = (Ok Warned, disk ten_points).
Proof.
  assert (Hrows : Converter.cleaned_cloud (disk ten_points) scan_txt
                  = Ok (map row_of (data_lines ten_points))) by reflexivity.
  assert (HN : (Z.of_nat (length (map row_of (data_lines ten_points))) < 2 ^ 53)%Z)
    by reflexivity.
  split;
    rewrite (converter_rejects_without_writing _ _ _ _ _ _ _ Hrows HN);
    reflexivity.
Defined.

(** X18. The converter on a file that does not parse: [start] raises
    the error of the parsing right after the file dialog, from its first
    [update_hint]; the settings are never read and nothing is written. *)
Theorem converter_stops_at_a_bad_file `{RandomState} `{ExcelWriter}
    (fs : gmap string file) (filepath : str) (e : exn)
    (entered : option str) (label : QLabel) (seed_hint seed : Z) :
  Converter.cleaned_cloud fs filepath = Raise e ->
  ConverterApp.__init__ fs (Some filepath) entered label seed_hint seed
  = (Raise e, fs) /\
  (e = IOError \/ e = IndexError).
Proof.
  intros Hrows. split; [|exact (cleaned_cloud_raise _ _ _ Hrows)].
  unfold ConverterApp.__init__, ConverterApp.start, ConverterApp.update_hint,
    ConverterApp.subsample.
  change (float_of_str "1.0") with (Ok float_one).
  rewrite bind_Ok. unfold Converter.preview. rewrite Hrows, bind_Raise.
  destruct (cleaned_cloud_raise _ _ _ Hrows) as [-> | ->]; reflexivity.
Qed.

Lemma converter_stops_at_a_bad_file_witness :
  ConverterApp.__init__ (disk ten_points) (Some "/data/none.txt") (Some "0.5")
    (Label "" "") 2 8 = (Raise IOError, disk ten_points).
Proof.
  apply (converter_stops_at_a_bad_file (disk ten_points) "/data/none.txt" IOError).
  reflexivity.
Defined.

Lemma validate_subsample_Some le v :
  Transformer.validate_subsample le = Ok (Some v) ->
  float_valid v = true /\
  float_lt float_zero v = true /\ float_le v float_one = true.
Proof.
  intros Hval. change (Converter.validate_sub le = Ok (Some v)) in Hval.
  now destruct (validate_sub_Some le v Hval) as (_ & ? & ? & ?).
Qed.

(** A value that the validator lets through counts as true. *)
Lemma validated_value_is_true le v :
  Transformer.validate_subsample le = Ok (Some v) ->
  TransformerApp.truth (Some v) = true.
Proof.
  intros Hval. destruct (validate_subsample_Some le v Hval) as (_ & Hlt & _).
  destruct v as [s|s| |s m e]; try reflexivity. destruct s; discriminate Hlt.
Qed.

Lemma clean_cloud_of_parse (fs : gmap string file) filepath points rows :
  Converter.cleaned_cloud fs filepath = Ok rows ->
  Transformer._clean_cloud fs filepath points = Ok (points ++ rows).
Proof.
  unfold Transformer._clean_cloud, Converter.cleaned_cloud.
  destruct (open_rb fs filepath) as [c|e]; [|discriminate].
  rewrite !bind_Ok. intros Hloop.
  now rewrite (for_each_clean_line_container _ points), Hloop.
Qed.

(** X19. The transformer from its start to the workbook: when the file
    chosen parses and the text entered passes [validate_subsample] as the
    fraction v, the test of [self.value] lets it through and the workbook
    is saved, sampled from the rows already in [self.points] followed by
    the parsed rows. *)
Theorem transformer_saves_for_a_valid_fraction `{RandomState} `{ExcelWriter}
    (fs : gmap string file) (filepath : str) (points rows : list (list str))
    (le : str) (v : float) (seed : Z) :
  Converter.cleaned_cloud fs filepath = Ok rows ->
  (Z.of_nat (length (points ++ rows)) < 2 ^ 53)%Z ->
  Transformer.validate_subsample le = Ok (Some v) ->
  exists n grid,
    Pandas.sample_size v (length (points ++ rows)) = Ok n /\
    (0 <= n <= Z.of_nat (length (points ++ rows)))%Z /\
    length grid = Z.to_nat n /\
    TransformerApp.start fs (Some filepath) (Some le) points seed
    = (Ok Saved, <[Transformer._xlsx_path filepath := File true (xlsx grid)]> fs).
Proof.
  intros Hrows HN Hval.
  destruct (validate_subsample_Some le v Hval) as (Hv & Hlt & Hle1).
  destruct (sample_size_bounds v _ Hv Hlt Hle1 HN) as (n & Hn & Hrange).
  destruct (sample_ok (points ++ rows) v seed n Hn Hrange)
    as (df & Hdf & _ & Hlen & _).
  exists n, (Pandas.values df).
  split; [exact Hn|]. split; [exact Hrange|]. split; [exact Hlen|].
  unfold TransformerApp.start.
  rewrite Hval, (validated_value_is_true le v Hval).
  unfold Transformer.transform, Transformer._create_xlsx.
  now rewrite (clean_cloud_of_parse fs filepath points rows Hrows), Hdf.
Qed.

Lemma transformer_saves_for_a_valid_fraction_witness :
  exists grid,
    length grid = 5%nat /\
    TransformerApp.start (disk ten_points) (Some scan_txt) (Some "0.5") [] 3
    = (Ok Saved, <["/data/scan.xlsx" := File true (xlsx grid)]> (disk ten_points)).
Proof.
  destruct (transformer_saves_for_a_valid_fraction (disk ten_points) scan_txt
              [] (map row_of (data_lines ten_points)) "0.5" float_half 3)
    as (n & grid & Hn & _ & Hlen & Hrun); try reflexivity.
  assert (En : n = 5%Z) by (vm_compute in Hn; congruence).
  subst n. exists grid. split; [exact Hlen | exact Hrun].
Defined.

(** X20. The transformer shows its warning exactly when
    [validate_subsample] returns [None]: for a text that is no number as
    for a number outside (0, 1].  The text never makes [start] raise, and
    the test of [self.value] turns away no value that was validated. *)
Theorem transformer_warns_exactly_when_not_validated
    `{RandomState} `{ExcelWriter}
    (fs : gmap string file) (filepath : str) (points : list (list str))
    (le : str) (seed : Z) :
  (TransformerApp.start fs (Some filepath) (Some le) points seed
   = (Ok Warned, fs)
   <-> Transformer.validate_subsample le = Ok None) /\
  (exists value, Transformer.validate_subsample le = Ok value) /\
  (Transformer.validate_subsample le = Ok None <->
   match float_of_str le with
   | Ok x => float_lt float_zero x && float_le x float_one = false
   | Raise _ => True
   end).
Proof.
  assert (Hok : exists value, Transformer.validate_subsample le = Ok value).
  { unfold Transformer.validate_subsample.
    destruct (float_of_str le) as [x|e] eqn:Hle.
    - destruct (float_lt float_zero x && float_le x float_one); eauto.
    - rewrite (float_of_str_raise le e Hle). eauto. }
  split; [|split; [exact Hok|]].
  - unfold TransformerApp.start. destruct Hok as [[v|] Hval]; rewrite Hval.
    + rewrite (validated_value_is_true le v Hval). split; [|discriminate].
      destruct (Transformer.transform fs filepath points v seed) as [[u|e] fs'];
        discriminate.
    + cbn [TransformerApp.truth]. split; reflexivity.
  - unfold Transformer.validate_subsample.
    destruct (float_of_str le) as [x|e] eqn:Hle.
    + destruct (float_lt float_zero x && float_le x float_one);
        split; (reflexivity || discriminate).
    + rewrite (float_of_str_raise le e Hle). split; auto.
Qed.

Lemma transformer_warns_exactly_when_not_validated_witness :
  TransformerApp.start (disk ten_points) (Some scan_txt) (Some "half") [] 3
  = (Ok Warned, disk ten_points) /\
  TransformerApp.start (disk ten_points) (Some scan_txt) (Some "0") [] 3
  = (Ok Warned, disk ten_points).
Proof.
  split.
  - apply (proj1 (transformer_warns_exactly_when_not_validated
                    (disk ten_points) scan_txt [] "half" 3)).
    reflexivity.
  - apply (proj1 (transformer_warns_exactly_when_not_validated
                    (disk ten_points) scan_txt [] "0" 3)).
    reflexivity.
Defined.

(** X21. What [validate_sub] lets through, the engine accepts: for a
    file that parses to N rows and a text validated as the fraction v,
    [preview] returns [int(round(v * N))], a count between 0 and N, for
    every seed, and [transform] writes a grid of that many rows. *)
Theorem validated_fraction_is_accepted `{RandomState} `{ExcelWriter}
    (fs : gmap string file) (filepath : str) (rows : list (list str))
    (le : str) (v : float) :
  Converter.cleaned_cloud fs filepath = Ok rows ->
  (Z.of_nat (length rows) < 2 ^ 53)%Z ->
  Converter.validate_sub le = Ok (Some v) ->
  exists n,
    Pandas.sample_size v (length rows) = Ok n /\
    (0 <= n <= Z.of_nat (length rows))%Z /\
    forall seed,
      Converter.preview fs filepath v seed = Ok (Z.to_nat n) /\
      exists grid,
        Converter.transform fs filepath v seed
        = (Ok tt, <[Converter._xlsx_path filepath := File true (xlsx grid)]> fs) /\
        length grid = Z.to_nat n.
Proof.
  intros Hrows HN Hval.
  destruct (validate_sub_Some le v Hval) as (_ & Hv & Hlt & Hle1).
  destruct (sample_size_bounds v _ Hv Hlt Hle1 HN) as (n & Hn & Hrange).
  exists n. split; [exact Hn|]. split; [exact Hrange|]. intros seed. split.
  - rewrite (preview_by_size fs filepath rows v seed Hrows), Hn.
    replace ((0 <=? n) && (n <=? Z.of_nat (length rows)))%Z with true;
      [reflexivity|].
    symmetry. apply andb_true_iff. split; apply Z.leb_le; lia.
  - exact (transform_by_size fs filepath rows v seed n Hrows Hn Hrange).
Qed.

Lemma validated_fraction_is_accepted_witness :
  Converter.validate_sub "3e-1" = Ok (Some (S754_finite false 5404319552844595 (-54))) /\
  Converter.preview (disk ten_points) scan_txt
    (S754_finite false 5404319552844595 (-54)) 7 = Ok 3%nat.
Proof.
  split; [reflexivity|].
  destruct (validated_fraction_is_accepted (disk ten_points) scan_txt
              (map row_of (data_lines ten_points)) "3e-1"
              (S754_finite false 5404319552844595 (-54))
              eq_refl eq_refl eq_refl)
    as (n & Hn & _ & Hrun).
  assert (En : n = 3%Z) by (vm_compute in Hn; congruence).
  subst n. exact (proj1 (Hrun 7%Z)).
Defined.
